(** * The learn page controller and its server actions

    A shallow embedding of [src/app/learn/page.tsx] (the client page
    controller [LearnPageComponent]) and of the server actions
    [generateCourseAction] and [askQuestionAction].

    React state cells ([courses], [activeCourseId], [generationState]) are
    kept in a [Store]; a handler is a computation in a state-and-exception
    monad over that store.  Every effect a handler performs (a state
    setter, a toast, a [console.error], a call through one of the imported
    asynchronous functions) is appended, in program order, to the store's
    event log.  The values a handler closes over ([courses],
    [activeCourseId], [mounted], [user] of the render that created it) are
    passed as a [Render]; functional updates [setCourses(prev => ...)] act
    on the store.  The imported asynchronous functions are oracles that
    give, for each request, how the promise settles.  A handler runs from
    its first statement to its last with nothing in between: what two
    overlapping handlers do to each other is not modelled.  Of the JSX
    only the choice between loader, course display and topic selection is
    kept; the effects that set [mounted] and redirect to the login page
    are left out. *)

From Stdlib Require Import String List ZArith Bool Sorted Lia.
Import ListNotations.
Open Scope string_scope.
Open Scope list_scope.

(** ** JavaScript completions *)

(** A value caught by [catch (error)]: an [Error] object with its
    [message], or any other thrown value. *)
Inductive Thrown : Type :=
| ErrorObject (message : string)
| NonError (shown : string).

(** How a call, or an awaited promise, ends: normally with a value, or
    abruptly with a thrown value (a rejected promise). *)
Inductive Completion (A : Type) : Type :=
| Normal (a : A)
| Abrupt (e : Thrown).
Arguments Normal {A} a.
Arguments Abrupt {A} e.

(** [error instanceof Error ? error.message : fallback] *)
Definition message_or (error : Thrown) (fallback : string) : string :=
  match error with
  | ErrorObject m => m
  | NonError _ => fallback
  end.

(** ** Data model *)

(** [depth: 15 | 30] *)
Inductive Depth : Type := depth15 | depth30.

(** [depth.toString() as '15' | '30'] *)
Definition depth_toString (d : Depth) : string :=
  match d with depth15 => "15" | depth30 => "30" end.

(** [GenerationState = { status: 'idle' | 'generating' | 'done' }] *)
Inductive Status : Type := idle | generating | done.
Record GenerationState : Type := { status : Status }.

(** The argument of [toast(...)]. *)
Record Toast : Type := {
  variant : string;
  toast_title : string;
  description : string
}.

(** The result of both question-answering functions. *)
Record AskStepQuestionOutput : Type := { answer : string }.

Record AskStepQuestionInput : Type := {
  q_topic : string;
  q_stepTitle : string;
  q_stepContent : string;
  q_question : string
}.

Record GenerateFullCourseInput : Type := {
  g_topic : string;
  g_depth : string
}.

(** The signed-in user, of which the controller reads [uid] only. *)
Record User : Type := { uid : string }.

Section Controller.
Context {ExternalLink Quiz : Type}.

(** Modelled from the spec: the declarations of [Step] and [Course]
    ([@/lib/types]) and of the generation result
    ([@/ai/flows/generate-full-course]) are not part of the reviewed files.
    The records below take the fields the controller reads and writes, with
    the shapes of sections 3 and 6 of the specification.  An external link
    and a quiz payload are objects whose fields the controller never
    inspects: they are type parameters.  Step numbers are JavaScript
    numbers that hold integers. *)
Record Step : Type := {
  stepNumber : Z;
  title : string;
  content : option string;
  completed : bool;
  funFact : option string;
  externalLinks : option (list ExternalLink);
  quiz : option Quiz
}.

(** [Partial<Step>]: [None] is a key the object does not have. *)
Record PartialStep : Type := {
  p_stepNumber : option Z;
  p_title : option string;
  p_content : option (option string);
  p_completed : option bool;
  p_funFact : option (option string);
  p_externalLinks : option (option (list ExternalLink));
  p_quiz : option (option Quiz)
}.

(** One entry of [result.course], as the generation action returns it. *)
Record OutlineStep : Type := {
  o_step : Z;
  o_title : string;
  o_description : string;
  o_content : string;
  o_funFact : option string;
  o_externalLinks : option (list ExternalLink);
  o_quiz : option Quiz
}.

Record GenerateFullCourseOutput : Type := { course : list OutlineStep }.

(** [newCourseData]: a course before the database has given it an id. *)
Record CourseData : Type := {
  d_topic : string;
  d_depth : Depth;
  d_outline : string;
  d_steps : list Step;
  d_createdAt : string;
  d_userId : string
}.

Record Course : Type := {
  id : string;
  topic : string;
  depth : Depth;
  outline : string;
  steps : list Step;
  createdAt : string;
  userId : string
}.

(** [{ id: newCourseId, ...newCourseData }] *)
Definition with_id (newCourseId : string) (d : CourseData) : Course :=
  {| id := newCourseId;
     topic := d_topic d;
     depth := d_depth d;
     outline := d_outline d;
     steps := d_steps d;
     createdAt := d_createdAt d;
     userId := d_userId d |}.

(** [{ ...courseToUpdate, steps: updatedSteps }] *)
Definition with_steps (c : Course) (updatedSteps : list Step) : Course :=
  {| id := id c;
     topic := topic c;
     depth := depth c;
     outline := outline c;
     steps := updatedSteps;
     createdAt := createdAt c;
     userId := userId c |}.

(** One key of an object spread [{ ...step, ...newStepData }]: the later
    object wins where it has the key. *)
Definition spread_key {A : Type} (old : A) (new : option A) : A :=
  match new with
  | Some v => v
  | None => old
  end.

(** [{ ...step, ...newStepData }] *)
Definition merge_step (step : Step) (newStepData : PartialStep) : Step :=
  {| stepNumber := spread_key (stepNumber step) (p_stepNumber newStepData);
     title := spread_key (title step) (p_title newStepData);
     content := spread_key (content step) (p_content newStepData);
     completed := spread_key (completed step) (p_completed newStepData);
     funFact := spread_key (funFact step) (p_funFact newStepData);
     externalLinks :=
       spread_key (externalLinks step) (p_externalLinks newStepData);
     quiz := spread_key (quiz step) (p_quiz newStepData) |}.

(** ** Truthiness of the optional fields *)

(** [if (step.funFact)]: a string is truthy unless it is empty, and a
    missing key reads as [undefined]. *)
Definition truthy_string (v : option string) : bool :=
  match v with
  | Some s => negb (String.eqb s "")
  | None => false
  end.

(** [if (step.externalLinks)], [if (step.quiz)]: arrays and objects are
    truthy, the empty array included. *)
Definition truthy_object {A : Type} (v : option A) : bool :=
  match v with
  | Some _ => true
  | None => false
  end.

(** [if (c) { newStep.key = v }] on a key that [newStep] does not have yet *)
Definition assign_if {A : Type} (c : bool) (v : option A) : option A :=
  if c then v else None.

(** ** Events and the store *)

Inductive GatewayCall : Type :=
| CallGetCoursesForUser (userId : string)
| CallAddCourse (data : CourseData)
| CallUpdateCourse (courseId : string) (patch_steps : list Step)
| CallDeleteCourse (courseId : string)
| CallGenerateCourseAction (input : GenerateFullCourseInput)
| CallAskQuestionAction (input : AskStepQuestionInput).

Inductive ConsoleArg : Type :=
| LogText (s : string)
| LogThrown (e : Thrown).

Inductive Event : Type :=
| SetCourses (now : list Course)
| SetActiveCourseId (now : option string)
| SetGenerationState (now : GenerationState)
| ToastShown (t : Toast)
| ConsoleError (args : list ConsoleArg)
| Called (c : GatewayCall).

Record Store : Type := {
  st_courses : list Course;
  st_activeCourseId : option string;
  st_generationState : GenerationState;
  st_events : list Event
}.

(** What a handler closes over: the values of the render that made it. *)
Record Render : Type := {
  courses : list Course;
  activeCourseId : option string;
  mounted : bool;
  user : option User
}.

(** The render that shows a store. *)
Definition render (s : Store) (is_mounted : bool) (u : option User) : Render :=
  {| courses := st_courses s;
     activeCourseId := st_activeCourseId s;
     mounted := is_mounted;
     user := u |}.

(** A handler made by the latest render sees the store as it is. *)
Definition fresh (r : Render) (s : Store) : Prop :=
  courses r = st_courses s /\ activeCourseId r = st_activeCourseId s.

(** ** The monad of handlers *)

Definition M (A : Type) : Type := Store -> Completion A * Store.

Definition ret {A : Type} (a : A) : M A := fun s => (Normal a, s).

Definition bind {A B : Type} (m : M A) (k : A -> M B) : M B :=
  fun s =>
    match m s with
    | (Normal a, s') => k a s'
    | (Abrupt e, s') => (Abrupt e, s')
    end.

(** [throw e] *)
Definition throw {A : Type} (e : Thrown) : M A := fun s => (Abrupt e, s).

(** [try { body } catch (error) { handler }] *)
Definition try_catch {A : Type} (body : M A) (handler : Thrown -> M A) : M A :=
  fun s =>
    match body s with
    | (Normal a, s') => (Normal a, s')
    | (Abrupt e, s') => handler e s'
    end.

Definition emit (ev : Event) (s : Store) : Store :=
  {| st_courses := st_courses s;
     st_activeCourseId := st_activeCourseId s;
     st_generationState := st_generationState s;
     st_events := st_events s ++ [ev] |}.

(** [setCourses(prev => f(prev))]; [setCourses(v)] is [setCourses (fun _ => v)]. *)
Definition setCourses (f : list Course -> list Course) : M unit :=
  fun s =>
    let now := f (st_courses s) in
    (Normal tt,
     emit (SetCourses now)
       {| st_courses := now;
          st_activeCourseId := st_activeCourseId s;
          st_generationState := st_generationState s;
          st_events := st_events s |}).

Definition setActiveCourseId (v : option string) : M unit :=
  fun s =>
    (Normal tt,
     emit (SetActiveCourseId v)
       {| st_courses := st_courses s;
          st_activeCourseId := v;
          st_generationState := st_generationState s;
          st_events := st_events s |}).

Definition setGenerationState (g : GenerationState) : M unit :=
  fun s =>
    (Normal tt,
     emit (SetGenerationState g)
       {| st_courses := st_courses s;
          st_activeCourseId := st_activeCourseId s;
          st_generationState := g;
          st_events := st_events s |}).

Definition toast (t : Toast) : M unit :=
  fun s => (Normal tt, emit (ToastShown t) s).

Definition console_error (args : list ConsoleArg) : M unit :=
  fun s => (Normal tt, emit (ConsoleError args) s).

(** [await f(request)]: the call is made, then the handler resumes with
    the way the promise settled. *)
Definition await {A : Type} (c : GatewayCall) (settled : Completion A) : M A :=
  fun s => (settled, emit (Called c) s).

End Controller.

Arguments Step : clear implicits.
Arguments PartialStep : clear implicits.
Arguments OutlineStep : clear implicits.
Arguments GenerateFullCourseOutput : clear implicits.
Arguments CourseData : clear implicits.
Arguments Course : clear implicits.
Arguments GatewayCall : clear implicits.
Arguments Event : clear implicits.
Arguments Store : clear implicits.
Arguments Render : clear implicits.
Arguments M : clear implicits.

Declare Scope handler_scope.
Delimit Scope handler_scope with handler.
Notation "x <- m ;; k" := (bind m (fun x => k))
  (at level 61, m at next level, right associativity) : handler_scope.
Notation "m ;; k" := (bind m (fun _ => k))
  (at level 61, right associativity) : handler_scope.

(** ** Server actions ([app/actions.ts]) *)

Module Actions.
Section Actions.
Context {ExternalLink Quiz : Type}.
Local Abbreviation Output := (GenerateFullCourseOutput ExternalLink Quiz).

Definition zero_steps_message : string :=
  "The AI failed to generate a course for this topic. Please try a different topic.".

Definition unable_message : string :=
  "The AI was unable to generate a course for this topic. This can happen with very specific or sensitive subjects. Please try a broader or different topic.".

Definition unknown_answer_message : string :=
  "An unknown error occurred while getting the answer.".

(** An action ends with a completion and the lines it wrote with
    [console.error] on the server. *)
Definition Action (A : Type) : Type := (Completion A * list (list ConsoleArg))%type.

(** [generateCourseAction]: the body of the [try] first, then the [catch]
    that receives whatever the body threw.  [!result.course] is false for
    every array, so the guard is the length test. *)
Definition generateCourseAction
    (generateFullCourse : GenerateFullCourseInput -> Completion Output)
    (input : GenerateFullCourseInput) : Action Output :=
  let body : Completion Output :=
    match generateFullCourse input with
    | Normal result =>
        if (length (course result) =? 0)%nat
        then Abrupt (ErrorObject zero_steps_message)
        else Normal result
    | Abrupt e => Abrupt e
    end in
  match body with
  | Normal result => (Normal result, [])
  | Abrupt error =>
      (Abrupt (ErrorObject unable_message),
       [[LogText "Error in generateCourseAction:"; LogThrown error]])
  end.

(** [askQuestionAction] *)
Definition askQuestionAction
    (askStepQuestion : AskStepQuestionInput -> Completion AskStepQuestionOutput)
    (input : AskStepQuestionInput) : Action AskStepQuestionOutput :=
  match askStepQuestion input with
  | Normal out => (Normal out, [])
  | Abrupt error =>
      (Abrupt (ErrorObject (message_or error unknown_answer_message)),
       [[LogText "Error in askQuestionAction:"; LogThrown error]])
  end.

End Actions.
End Actions.

(** ** The page controller ([app/learn/page.tsx]) *)

Section Page.
Context {ExternalLink Quiz : Type}.
Local Abbreviation Step := (Step ExternalLink Quiz).
Local Abbreviation PartialStep := (PartialStep ExternalLink Quiz).
Local Abbreviation OutlineStep := (OutlineStep ExternalLink Quiz).
Local Abbreviation Output := (GenerateFullCourseOutput ExternalLink Quiz).
Local Abbreviation CourseData := (CourseData ExternalLink Quiz).
Local Abbreviation Course := (Course ExternalLink Quiz).
Local Abbreviation Store := (Store ExternalLink Quiz).
Local Abbreviation Render := (Render ExternalLink Quiz).
Local Abbreviation M := (M ExternalLink Quiz).
Local Open Scope handler_scope.

(** [{ step: s.step, title: s.title, description: s.description }] *)
Record OutlineEntry : Type := {
  e_step : Z;
  e_title : string;
  e_description : string
}.

(** What the page imports and the runtime gives it: for each request, how
    the promise of each imported asynchronous function settles, and the
    value of [new Date().toISOString()]. *)
Record Env : Type := {
  getCoursesForUser : string -> Completion (list Course);
  addCourse : CourseData -> Completion string;
  updateCourse : string -> list Step -> Completion unit;
  deleteCourseFromDb : string -> Completion unit;
  generateCourseAction : GenerateFullCourseInput -> Completion Output;
  askQuestionAction : AskStepQuestionInput -> Completion AskStepQuestionOutput;
  date_toISOString : string
}.

(** [JSON.stringify(entries, null, 2)], a function of the runtime. *)
Variable JSON_stringify : list OutlineEntry -> string.

(** [c.id === courseId] *)
Definition has_id (courseId : string) (c : Course) : bool :=
  String.eqb (id c) courseId.

(** [activeCourseId === courseId], where [activeCourseId] may be [null] *)
Definition is_id (activeCourseId : option string) (courseId : string) : bool :=
  match activeCourseId with
  | Some a => String.eqb a courseId
  | None => false
  end.

(** [c.id === activeCourseId], where [activeCourseId] may be [null] *)
Definition id_is (courseId : string) (activeCourseId : option string) : bool :=
  match activeCourseId with
  | Some a => String.eqb courseId a
  | None => false
  end.

Definition load_toast : Toast :=
  {| variant := "destructive";
     toast_title := "Error";
     description := "Failed to load courses. Please refresh the page." |}.

(** [fetchCourses] *)
Definition fetchCourses (r : Render) (env : Env) : M unit :=
  match user r, mounted r with
  | Some u, true =>
      try_catch
        (userCourses <- await (CallGetCoursesForUser (uid u))
                              (getCoursesForUser env (uid u)) ;;
         setCourses (fun _ => userCourses))
        (fun error =>
           console_error [LogText "Error fetching courses:"; LogThrown error] ;;
           toast load_toast)
  | _, _ => ret tt
  end.

(** [activeCourse]: [courses.find(c => c.id === activeCourseId) || null].
    A course is an object, hence truthy; [undefined] becomes [null]. *)
Definition activeCourse (courses : list Course) (activeCourseId : option string)
  : option Course :=
  find (fun c => id_is (id c) activeCourseId) courses.

(** The callback of [result.course.map] in [handleGenerateCourse]. *)
Definition newStep (step : OutlineStep) : Step :=
  {| stepNumber := o_step step;
     title := o_title step;
     content := Some (o_content step);
     completed := false;
     funFact := assign_if (truthy_string (o_funFact step)) (o_funFact step);
     externalLinks :=
       assign_if (truthy_object (o_externalLinks step)) (o_externalLinks step);
     quiz := assign_if (truthy_object (o_quiz step)) (o_quiz step) |}.

Definition outline_entry (s : OutlineStep) : OutlineEntry :=
  {| e_step := o_step s; e_title := o_title s; e_description := o_description s |}.

Definition generation_toast (error : Thrown) : Toast :=
  {| variant := "destructive";
     toast_title := "Error Generating Course";
     description := message_or error "An unknown error occurred." |}.

Definition authentication_toast : Toast :=
  {| variant := "destructive";
     toast_title := "Authentication Error";
     description := "You must be logged in to create a course." |}.

(** [{ topic, depth: depth.toString() }] *)
Definition generate_input (topic : string) (depth : Depth)
  : GenerateFullCourseInput :=
  {| g_topic := topic; g_depth := depth_toString depth |}.

(** [newCourseData] of [handleGenerateCourse] *)
Definition newCourseData (env : Env) (u : User) (topic : string) (depth : Depth)
    (result : Output) (steps : list Step) : CourseData :=
  {| d_topic := topic;
     d_depth := depth;
     d_outline := JSON_stringify (map outline_entry (course result));
     d_steps := steps;
     d_createdAt := date_toISOString env;
     d_userId := uid u |}.

(** [handleGenerateCourse].  [!steps] is false for every array, so the
    guard before the [throw] is the length test. *)
Definition handleGenerateCourse (r : Render) (env : Env)
    (topic : string) (depth : Depth) : M unit :=
  match user r, mounted r with
  | Some u, true =>
      setGenerationState {| status := generating |} ;;
      try_catch
        (let input := generate_input topic depth in
         result <- await (CallGenerateCourseAction input)
                         (generateCourseAction env input) ;;
         let steps := map newStep (course result) in
         (if (length steps =? 0)%nat
          then throw (ErrorObject Actions.zero_steps_message)
          else ret tt) ;;
         let data := newCourseData env u topic depth result steps in
         newCourseId <- await (CallAddCourse data) (addCourse env data) ;;
         let newCourse := with_id newCourseId data in
         setCourses (fun prev => newCourse :: prev) ;;
         setActiveCourseId (Some (id newCourse)) ;;
         setGenerationState {| status := done |})
        (fun error =>
           console_error [LogThrown error] ;;
           toast (generation_toast error) ;;
           setGenerationState {| status := idle |})
  | _, _ => toast authentication_toast
  end.

(** The events of the [catch] block of [handleGenerateCourse]. *)
Definition generation_catch (e : Thrown) : list (Event ExternalLink Quiz) :=
  [ConsoleError [LogThrown e];
   ToastShown (generation_toast e);
   SetGenerationState {| status := idle |}].

(** The store after the [catch] block, [evs] being what happened before
    the error was thrown. *)
Definition generation_failed (s : Store) (evs : list (Event ExternalLink Quiz))
    (e : Thrown) : Store :=
  {| st_courses := st_courses s;
     st_activeCourseId := st_activeCourseId s;
     st_generationState := {| status := idle |};
     st_events := st_events s ++ evs ++ generation_catch e |}.

Definition sync_toast : Toast :=
  {| variant := "destructive";
     toast_title := "Sync Error";
     description := "Failed to save changes." |}.

(** [courseToUpdate.steps.map(step => step.stepNumber === stepNumber ?
    { ...step, ...newStepData } : step)] *)
Definition updateSteps (stepNo : Z) (newStepData : PartialStep)
    (old : list Step) : list Step :=
  map (fun step =>
         if (stepNumber step =? stepNo)%Z then merge_step step newStepData
         else step)
      old.

(** [prevCourses.map(c => c.id === courseId ? replacement : c)] *)
Definition replaceCourse (courseId : string) (replacement : Course)
    (prevCourses : list Course) : list Course :=
  map (fun c => if has_id courseId c then replacement else c) prevCourses.

(** [handleUpdateStep] *)
Definition handleUpdateStep (r : Render) (env : Env)
    (courseId : string) (stepNo : Z) (newStepData : PartialStep) : M unit :=
  if negb (mounted r) then ret tt
  else
    match find (has_id courseId) (courses r) with
    | None => ret tt
    | Some courseToUpdate =>
        let updatedSteps := updateSteps stepNo newStepData (steps courseToUpdate) in
        let updatedCourse := with_steps courseToUpdate updatedSteps in
        setCourses (replaceCourse courseId updatedCourse) ;;
        try_catch
          (await (CallUpdateCourse courseId updatedSteps)
                 (updateCourse env courseId updatedSteps))
          (fun error =>
             console_error [LogText "Error updating step in DB:"; LogThrown error] ;;
             toast sync_toast ;;
             setCourses (replaceCourse courseId courseToUpdate))
    end.

Definition placeholder_answer : AskStepQuestionOutput :=
  {| answer := "Please wait for the page to fully load." |}.

Definition fallback_answer : AskStepQuestionOutput :=
  {| answer := "Sorry, I couldn't process your question. Please try again." |}.

Definition answer_toast : Toast :=
  {| variant := "destructive";
     toast_title := "Error Getting Answer";
     description := "Could not get an answer for this question. Please try again." |}.

(** [step.content || '']: a missing or empty content reads as the empty
    string. *)
Definition content_or_empty (c : option string) : string :=
  if truthy_string c then match c with Some s => s | None => "" end else "".

Definition question_input (c : Course) (step : Step) (question : string)
  : AskStepQuestionInput :=
  {| q_topic := topic c;
     q_stepTitle := title step;
     q_stepContent := content_or_empty (content step);
     q_question := question |}.

(** [handleAskQuestion] *)
Definition handleAskQuestion (r : Render) (env : Env)
    (c : Course) (step : Step) (question : string) : M AskStepQuestionOutput :=
  if negb (mounted r) then ret placeholder_answer
  else
    try_catch
      (let input := question_input c step question in
       await (CallAskQuestionAction input) (askQuestionAction env input))
      (fun error =>
         console_error [LogThrown error] ;;
         toast answer_toast ;;
         ret fallback_answer).

(** [handleCreateNew] *)
Definition handleCreateNew : M unit := setActiveCourseId None.

Definition deletion_toast : Toast :=
  {| variant := "destructive";
     toast_title := "Deletion Failed";
     description := "Could not delete course from database." |}.

(** [handleDeleteCourse] *)
Definition handleDeleteCourse (r : Render) (env : Env) (courseId : string)
  : M unit :=
  if negb (mounted r) then ret tt
  else
    let originalCourses := courses r in
    setCourses (filter (fun c => negb (has_id courseId c))) ;;
    (if is_id (activeCourseId r) courseId then setActiveCourseId None
     else ret tt) ;;
    try_catch
      (await (CallDeleteCourse courseId) (deleteCourseFromDb env courseId))
      (fun error =>
         console_error [LogText "Error deleting course from DB:"; LogThrown error] ;;
         toast deletion_toast ;;
         setCourses (fun _ => originalCourses)).

(** What [handleDeleteCourse] logs when the remote delete fails. *)
Definition delete_log (e : Thrown) : Event ExternalLink Quiz :=
  ConsoleError [LogText "Error deleting course from DB:"; LogThrown e].

(** What the component returns: the loader, or the workspace whose main
    pane is the display of the active course or, without one, the topic
    selection.  The handlers are props of the workspace only. *)
Inductive View : Type :=
| Loader
| CourseDisplay (c : Course)
| TopicSelection (g : GenerationState).

(** The three [return]s of [LearnPageComponent], [loading] being the flag
    of [useAuth]. *)
Definition LearnPageComponent (r : Render) (loading : bool)
    (generationState : GenerationState) : View :=
  if negb (mounted r) || loading then Loader
  else
    match user r with
    | None => Loader
    | Some _ =>
        match activeCourse (courses r) (activeCourseId r) with
        | Some c => CourseDisplay c
        | None => TopicSelection generationState
        end
    end.

(** [setTimeout(() => router.push(target), delay)] *)
Record Timer : Type := {
  delay : nat;
  target : string
}.

(** The effect that sends a visitor who is not signed in to the login
    page: the timer it sets, if it sets one. *)
Definition authRedirect (r : Render) (loading : bool) : option Timer :=
  if mounted r && negb loading && negb (truthy_object (user r))
  then Some {| delay := 100; target := "/login" |}
  else None.

(** The page as deployed: the two actions it imports are the server
    actions, over the flows [generateFullCourse] and [askStepQuestion]. *)
Definition deployed (env : Env)
    (generateFullCourse : GenerateFullCourseInput -> Completion Output)
    (askStepQuestion : AskStepQuestionInput -> Completion AskStepQuestionOutput)
  : Env :=
  {| getCoursesForUser := getCoursesForUser env;
     addCourse := addCourse env;
     updateCourse := updateCourse env;
     deleteCourseFromDb := deleteCourseFromDb env;
     generateCourseAction :=
       fun input => fst (Actions.generateCourseAction generateFullCourse input);
     askQuestionAction :=
       fun input => fst (Actions.askQuestionAction askStepQuestion input);
     date_toISOString := date_toISOString env |}.

(** The toasts of an event log, oldest first. *)
Fixpoint toasts (evs : list (Event ExternalLink Quiz)) : list Toast :=
  match evs with
  | [] => []
  | ToastShown t :: rest => t :: toasts rest
  | _ :: rest => toasts rest
  end.

(** The calls of an event log, oldest first. *)
Fixpoint calls (evs : list (Event ExternalLink Quiz))
  : list (GatewayCall ExternalLink Quiz) :=
  match evs with
  | [] => []
  | Called c :: rest => c :: calls rest
  | _ :: rest => calls rest
  end.

End Page.

(** * Worked scenarios

    A link is its URL and a quiz its question; the outline text is not
    looked at. *)

Definition no_outline (entries : list OutlineEntry) : string := "[]".

Definition plain_step (n : Z) (is_done : bool) : Step string string :=
  {| stepNumber := n;
     title := "Step";
     content := Some "Body";
     completed := is_done;
     funFact := None;
     externalLinks := None;
     quiz := None |}.

Definition plain_course (courseId : string) (l : list (Step string string))
  : Course string string :=
  {| id := courseId;
     topic := "X";
     depth := depth15;
     outline := "[]";
     steps := l;
     createdAt := "2024-01-01T00:00:00.000Z";
     userId := "u1" |}.

Definition courseA : Course string string := plain_course "A" [].
Definition courseB : Course string string := plain_course "B" [].
Definition courseC : Course string string :=
  plain_course "C" [plain_step 1 false; plain_step 2 false].

(** The collection [[A, B, C]] with [A] selected and nothing logged. *)
Definition shelf : Store string string :=
  {| st_courses := [courseA; courseB; courseC];
     st_activeCourseId := Some "A";
     st_generationState := {| status := idle |};
     st_events := [] |}.

Definition alice : User := {| uid := "u1" |}.

(** The mounted page of a signed-in user, showing [shelf]. *)
Definition page : Render string string := render shelf true (Some alice).

(** The same page before it is mounted. *)
Definition unmounted_page : Render string string :=
  render shelf false (Some alice).

Definition entry (n : Z) (fact : option string) : OutlineStep string string :=
  {| o_step := n;
     o_title := "Step";
     o_description := "About";
     o_content := "Body";
     o_funFact := fact;
     o_externalLinks := None;
     o_quiz := None |}.

(** Every call succeeds; the generation action returns [entries]. *)
Definition online (entries : list (OutlineStep string string))
  : @Env string string :=
  {| getCoursesForUser := fun _ => Normal [courseA];
     addCourse := fun _ => Normal "N";
     updateCourse := fun _ _ => Normal tt;
     deleteCourseFromDb := fun _ => Normal tt;
     generateCourseAction := fun _ => Normal {| course := entries |};
     askQuestionAction := fun _ => Normal {| answer := "Because." |};
     date_toISOString := "2024-01-02T00:00:00.000Z" |}.

Definition unavailable : Thrown := ErrorObject "unavailable".

(** Every call is rejected. *)
Definition offline : @Env string string :=
  {| getCoursesForUser := fun _ => Abrupt unavailable;
     addCourse := fun _ => Abrupt unavailable;
     updateCourse := fun _ _ => Abrupt unavailable;
     deleteCourseFromDb := fun _ => Abrupt unavailable;
     generateCourseAction := fun _ => Abrupt unavailable;
     askQuestionAction := fun _ => Abrupt unavailable;
     date_toISOString := "2024-01-02T00:00:00.000Z" |}.

(** The generation succeeds and the database is down. *)
Definition database_down (entries : list (OutlineStep string string))
  : @Env string string :=
  {| getCoursesForUser := fun _ => Abrupt unavailable;
     addCourse := fun _ => Abrupt unavailable;
     updateCourse := fun _ _ => Abrupt unavailable;
     deleteCourseFromDb := fun _ => Abrupt unavailable;
     generateCourseAction := fun _ => Normal {| course := entries |};
     askQuestionAction := fun _ => Abrupt unavailable;
     date_toISOString := "2024-01-02T00:00:00.000Z" |}.

(** The page of a visitor who is not signed in. *)
Definition visitor_page : Render string string := render shelf true None.

(** The generation flow fails with its own message. *)
Definition flow_down (input : GenerateFullCourseInput)
  : Completion (GenerateFullCourseOutput string string) :=
  Abrupt (ErrorObject "quota exceeded").

(** The question flow throws something that is not an [Error]. *)
Definition ask_down (input : AskStepQuestionInput)
  : Completion AskStepQuestionOutput :=
  Abrupt (NonError "503").

(** [{ completed: true }] *)
Definition mark_completed : PartialStep string string :=
  {| p_stepNumber := None;
     p_title := None;
     p_content := None;
     p_completed := Some true;
     p_funFact := None;
     p_externalLinks := None;
     p_quiz := None |}.

(** * Properties *)

(** Unfolds the monad so that a handler run on a store computes. *)
Ltac run_handler :=
  cbv beta delta
    [bind ret throw try_catch await toast console_error
     setCourses setActiveCourseId setGenerationState emit];
  cbn beta iota zeta;
  cbn [fst snd st_courses st_activeCourseId st_generationState st_events];
  rewrite <- ?app_assoc;
  cbn [app].

Section PageProperties.
Context {ExternalLink Quiz : Type}.
Local Abbreviation Step := (Step ExternalLink Quiz).
Local Abbreviation PartialStep := (PartialStep ExternalLink Quiz).
Local Abbreviation OutlineStep := (OutlineStep ExternalLink Quiz).
Local Abbreviation Output := (GenerateFullCourseOutput ExternalLink Quiz).
Local Abbreviation Course := (Course ExternalLink Quiz).
Local Abbreviation Store := (Store ExternalLink Quiz).
Local Abbreviation Render := (Render ExternalLink Quiz).
Local Abbreviation Env := (@Env ExternalLink Quiz).
Variable JSON_stringify : list OutlineEntry -> string.

(** ** Lists of courses *)

Lemma toasts_app (a b : list (Event ExternalLink Quiz)) :
  toasts (a ++ b) = toasts a ++ toasts b.
Proof.
  induction a as [|ev a IH]; [reflexivity|].
  destruct ev; cbn [app toasts]; rewrite IH; reflexivity.
Qed.

Lemma calls_app (a b : list (Event ExternalLink Quiz)) :
  calls (a ++ b) = calls a ++ calls b.
Proof.
  induction a as [|ev a IH]; [reflexivity|].
  destruct ev; cbn [app calls]; rewrite IH; reflexivity.
Qed.

Lemma has_id_with_steps (courseId : string) (c : Course) (l : list Step) :
  has_id courseId (with_steps c l) = has_id courseId c.
Proof. reflexivity. Qed.

(** Replacing the courses of one id by a course of that id puts the
    replacement where a lookup of the id finds it, if it finds any. *)
Lemma find_replaceCourse (courseId : string) (u : Course) (l : list Course) :
  has_id courseId u = true ->
  find (has_id courseId) (replaceCourse courseId u l)
  = match find (has_id courseId) l with
    | Some _ => Some u
    | None => None
    end.
Proof.
  intros Hu. induction l as [|c l IH]; [reflexivity|].
  cbn [replaceCourse map find]. destruct (has_id courseId c) eqn:Hc.
  - rewrite Hu. reflexivity.
  - rewrite Hc. exact IH.
Qed.

(** Courses of another id stay where they are. *)
Lemma find_replaceCourse_other (courseId other : string) (u : Course)
    (l : list Course) :
  has_id other u = false -> other <> courseId ->
  find (has_id other) (replaceCourse courseId u l) = find (has_id other) l.
Proof.
  intros Hu Hne. induction l as [|c l IH]; [reflexivity|].
  cbn [replaceCourse map find]. destruct (has_id courseId c) eqn:Hc.
  - rewrite Hu. assert (has_id other c = false) as ->.
    { unfold has_id in *. apply String.eqb_eq in Hc.
      apply String.eqb_neq. congruence. }
    exact IH.
  - destruct (has_id other c); [reflexivity | exact IH].
Qed.

Lemma replaceCourse_length (courseId : string) (u : Course) (l : list Course) :
  length (replaceCourse courseId u l) = length l.
Proof. apply length_map. Qed.

(** Where ids are not shared, replacing twice by the original gives the
    list back. *)
Lemma replaceCourse_revert (courseId : string) (u c : Course) (l : list Course) :
  has_id courseId u = true ->
  (forall c', In c' l -> has_id courseId c' = true -> c' = c) ->
  replaceCourse courseId c (replaceCourse courseId u l) = l.
Proof.
  intros Hu. induction l as [|x l IH]; intros Hall; [reflexivity|].
  cbn [replaceCourse map]. fold (replaceCourse courseId u l).
  fold (replaceCourse courseId c (replaceCourse courseId u l)).
  rewrite IH by (intros; apply Hall; [right|]; assumption).
  destruct (has_id courseId x) eqn:Hx.
  - rewrite Hu. f_equal. symmetry. apply Hall; [left; reflexivity | exact Hx].
  - rewrite Hx. reflexivity.
Qed.

Lemma find_filter_out (courseId : string) (l : list Course) :
  find (has_id courseId) (filter (fun c => negb (has_id courseId c)) l) = None.
Proof.
  induction l as [|c l IH]; [reflexivity|].
  cbn [filter]. destruct (has_id courseId c) eqn:Hc; cbn [negb]; [exact IH|].
  cbn [find]. rewrite Hc. exact IH.
Qed.

(** ** Active selection *)

Lemma activeCourse_null (cs : list Course) : activeCourse cs None = None.
Proof. induction cs as [|c cs IH]; [reflexivity | exact IH]. Qed.

Lemma activeCourse_first (cs : list Course) (aid : option string) (c : Course) :
  activeCourse cs aid = Some c <->
  exists before after,
    cs = before ++ c :: after /\ aid = Some (id c) /\
    forall c', In c' before -> id c' <> id c.
Proof.
  unfold activeCourse. split.
  - induction cs as [|x cs IH]; [discriminate|].
    cbn [find]. destruct (id_is (id x) aid) eqn:Hx.
    + intros [= <-]. exists [], cs. repeat split; [|intros c' []].
      destruct aid as [a|]; [|discriminate].
      cbn in Hx. apply String.eqb_eq in Hx. congruence.
    + intros Hf. destruct (IH Hf) as (before & after & -> & -> & Hfirst).
      exists (x :: before), after. repeat split.
      intros c' [<- | Hin]; [|apply Hfirst; exact Hin].
      cbn in Hx. apply String.eqb_neq in Hx. exact Hx.
  - intros (before & after & -> & -> & Hfirst).
    induction before as [|x before IH]; cbn [app find id_is].
    + rewrite String.eqb_refl. reflexivity.
    + assert (String.eqb (id x) (id c) = false) as ->.
      { apply String.eqb_neq. apply Hfirst. left. reflexivity. }
      apply IH. intros c' Hin. apply Hfirst. right. exact Hin.
Qed.

Lemma activeCourse_absent (cs : list Course) (aid : option string) :
  (forall c, In c cs -> aid <> Some (id c)) -> activeCourse cs aid = None.
Proof.
  intros Habs. destruct (activeCourse cs aid) as [c|] eqn:E; [|reflexivity].
  apply activeCourse_first in E. destruct E as (before & after & -> & -> & _).
  exfalso. apply (Habs c); [|reflexivity].
  apply in_or_app. right. left. reflexivity.
Qed.

(** A handler can be invoked only from a workspace, and a workspace is
    rendered only once the page is mounted and a user is signed in. *)
Lemma workspace_mounted (r : Render) (loading : bool) (g : GenerationState) :
  LearnPageComponent r loading g <> Loader ->
  mounted r = true /\ exists u, user r = Some u.
Proof.
  unfold LearnPageComponent. destruct (mounted r), loading; cbn [negb orb];
    try congruence.
  destruct (user r) as [u|]; [|congruence].
  intros _. split; [reflexivity | exists u; reflexivity].
Qed.

(** With an active identifier that no course has, the workspace shows
    the topic selection. *)
Lemma workspace_without_active (r : Render) (g : GenerationState) (u : User) :
  mounted r = true -> user r = Some u ->
  (forall c, In c (courses r) -> activeCourseId r <> Some (id c)) ->
  LearnPageComponent r false g = TopicSelection g.
Proof.
  intros Hm Hu Habs. unfold LearnPageComponent. rewrite Hm, Hu.
  cbn [negb orb]. rewrite activeCourse_absent by exact Habs. reflexivity.
Qed.

(** C8: the active course is a function of the collection and the active
    identifier alone: it is the first course of the collection whose id is
    the active identifier, and it is no course at all when the active
    identifier is null or is the id of no course in the collection. *)
Theorem activeCourse_is_lookup :
  (forall (cs : list Course) (aid : option string) (c : Course),
      activeCourse cs aid = Some c <->
      exists before after,
        cs = before ++ c :: after /\ aid = Some (id c) /\
        forall c', In c' before -> id c' <> id c)
  /\ (forall (cs : list Course) (aid : option string),
         (forall c, In c cs -> aid <> Some (id c)) ->
         activeCourse cs aid = None)
  /\ (forall (cs : list Course), activeCourse cs None = None)
  /\ (forall (s : Store) (is_mounted : bool) (u : option User),
         let r := render s is_mounted u in
         activeCourse (courses r) (activeCourseId r)
         = activeCourse (st_courses s) (st_activeCourseId s)).
Proof.
  repeat split.
  - apply activeCourse_first.
  - apply activeCourse_first.
  - apply activeCourse_absent.
  - apply activeCourse_null.
Qed.

(** ** Loading the collection *)

(** C9: when the fetch of the collection fails, [fetchCourses] ends
    normally, the collection, the selection and the generation state are
    what they were, and after the call the error is logged and one
    notification is shown. *)
Theorem fetchCourses_failure (r : Render) (env : Env) (s : Store)
    (u : User) (e : Thrown) :
  user r = Some u -> mounted r = true ->
  getCoursesForUser env (uid u) = Abrupt e ->
  let out := fetchCourses r env s in
  fst out = Normal tt
  /\ st_courses (snd out) = st_courses s
  /\ st_activeCourseId (snd out) = st_activeCourseId s
  /\ st_generationState (snd out) = st_generationState s
  /\ st_events (snd out)
     = st_events s
       ++ [Called (CallGetCoursesForUser (uid u));
           ConsoleError [LogText "Error fetching courses:"; LogThrown e];
           ToastShown load_toast].
Proof.
  intros Hu Hm Hfail. unfold fetchCourses. rewrite Hu, Hm.
  run_handler. rewrite Hfail. run_handler. repeat split.
Qed.

(** When the fetch succeeds the collection is replaced by what it gave. *)
Lemma fetchCourses_success (r : Render) (env : Env) (s : Store)
    (u : User) (userCourses : list Course) :
  user r = Some u -> mounted r = true ->
  getCoursesForUser env (uid u) = Normal userCourses ->
  let out := fetchCourses r env s in
  fst out = Normal tt /\ st_courses (snd out) = userCourses.
Proof.
  intros Hu Hm Hok. unfold fetchCourses. rewrite Hu, Hm.
  run_handler. rewrite Hok. run_handler. split; reflexivity.
Qed.

(** ** Asking a question about a step *)

(** C7: [handleAskQuestion] always ends normally with an answer.  Before
    the page is mounted the answer is the placeholder and the store,
    its event log included, is untouched, so no call was made.  When the
    call fails the answer is the fallback, and the error is logged and one
    notification shown.  When the call succeeds the answer is the one it
    gave. *)
Theorem handleAskQuestion_absorbs (r : Render) (env : Env) (s : Store)
    (c : Course) (step : Step) (question : string) :
  let out := handleAskQuestion r env c step question s in
  let input := question_input c step question in
  (exists a, fst out = Normal a)
  /\ (mounted r = false ->
      fst out = Normal placeholder_answer
      /\ snd out = s
      /\ calls (st_events (snd out)) = calls (st_events s))
  /\ (forall e, mounted r = true -> askQuestionAction env input = Abrupt e ->
      fst out = Normal fallback_answer
      /\ st_events (snd out)
         = st_events s
           ++ [Called (CallAskQuestionAction input);
               ConsoleError [LogThrown e];
               ToastShown answer_toast])
  /\ (forall a, mounted r = true -> askQuestionAction env input = Normal a ->
      fst out = Normal a
      /\ st_events (snd out)
         = st_events s ++ [Called (CallAskQuestionAction input)]).
Proof.
  unfold handleAskQuestion. destruct (mounted r); cbn [negb].
  - run_handler.
    destruct (askQuestionAction env (question_input c step question)) as [a|e];
      run_handler.
    + split; [exists a; reflexivity|].
      split; [discriminate|]. split; [discriminate|].
      intros a' _ [= <-]. split; reflexivity.
    + split; [exists fallback_answer; reflexivity|].
      split; [discriminate|]. split; [|discriminate].
      intros e' _ [= <-]. split; reflexivity.
  - run_handler. split; [exists placeholder_answer; reflexivity|].
    split; [intros _; repeat split; reflexivity|]. split; discriminate.
Qed.

(** ** Updating a step *)

(** How [handleUpdateStep] runs once the course is found. *)
Lemma handleUpdateStep_run (r : Render) (env : Env) (s : Store)
    (courseId : string) (stepNo : Z) (newStepData : PartialStep) (c : Course) :
  mounted r = true ->
  find (has_id courseId) (courses r) = Some c ->
  let updatedSteps := updateSteps stepNo newStepData (steps c) in
  let updatedCourse := with_steps c updatedSteps in
  let optimistic := replaceCourse courseId updatedCourse (st_courses s) in
  let out := handleUpdateStep r env courseId stepNo newStepData s in
  fst out = Normal tt
  /\ st_activeCourseId (snd out) = st_activeCourseId s
  /\ st_generationState (snd out) = st_generationState s
  /\ match updateCourse env courseId updatedSteps with
     | Normal _ =>
         st_courses (snd out) = optimistic
         /\ st_events (snd out)
            = st_events s
              ++ [SetCourses optimistic;
                  Called (CallUpdateCourse courseId updatedSteps)]
     | Abrupt e =>
         st_courses (snd out) = replaceCourse courseId c optimistic
         /\ st_events (snd out)
            = st_events s
              ++ [SetCourses optimistic;
                  Called (CallUpdateCourse courseId updatedSteps);
                  ConsoleError [LogText "Error updating step in DB:"; LogThrown e];
                  ToastShown sync_toast;
                  SetCourses (replaceCourse courseId c optimistic)]
     end.
Proof.
  intros Hm Hfind. unfold handleUpdateStep. rewrite Hm, Hfind. cbn [negb].
  run_handler.
  destruct (updateCourse env courseId (updateSteps stepNo newStepData (steps c)))
    as [[]|e]; run_handler; repeat split.
Qed.

(** C1: a step update on a mounted page whose handler sees the current
    collection, for a course the collection has.  If the persistence call
    succeeds, looking the course up afterwards gives the course it was with
    every step of the given number merged with the partial update, and no
    notification is shown.  If the call fails, looking the course up
    afterwards gives the very course it was before, and the one
    notification shown is the synchronization failure.  The merged course
    is the course it was in every field but its steps; its steps pair off
    with the old ones, a step of another number being the old step, and a
    step of the given number holding, key by key, the value of the partial
    update where the update has the key and the old value where it has
    not. *)
Theorem handleUpdateStep_optimistic (r : Render) (env : Env) (s : Store)
    (courseId : string) (stepNo : Z) (newStepData : PartialStep) (c : Course) :
  mounted r = true -> fresh r s ->
  find (has_id courseId) (st_courses s) = Some c ->
  let merged :=
    with_steps c
      (map (fun step =>
              if (stepNumber step =? stepNo)%Z
              then merge_step step newStepData else step)
           (steps c)) in
  let s' := snd (handleUpdateStep r env courseId stepNo newStepData s) in
  (updateCourse env courseId (steps merged) = Normal tt ->
   find (has_id courseId) (st_courses s') = Some merged
   /\ toasts (st_events s') = toasts (st_events s))
  /\ (forall e, updateCourse env courseId (steps merged) = Abrupt e ->
      find (has_id courseId) (st_courses s') = Some c
      /\ toasts (st_events s')
         = toasts (st_events s)
           ++ [{| variant := "destructive";
                  toast_title := "Sync Error";
                  description := "Failed to save changes." |}])
  /\ (id merged = id c /\ topic merged = topic c /\ depth merged = depth c
      /\ outline merged = outline c /\ createdAt merged = createdAt c
      /\ userId merged = userId c)
  /\ Forall2
       (fun old new : Step =>
          if (stepNumber old =? stepNo)%Z
          then
            stepNumber new
            = match p_stepNumber newStepData with
              | Some v => v
              | None => stepNumber old
              end
            /\ title new
               = match p_title newStepData with
                 | Some v => v
                 | None => title old
                 end
            /\ content new
               = match p_content newStepData with
                 | Some v => v
                 | None => content old
                 end
            /\ completed new
               = match p_completed newStepData with
                 | Some v => v
                 | None => completed old
                 end
            /\ funFact new
               = match p_funFact newStepData with
                 | Some v => v
                 | None => funFact old
                 end
            /\ externalLinks new
               = match p_externalLinks newStepData with
                 | Some v => v
                 | None => externalLinks old
                 end
            /\ quiz new
               = match p_quiz newStepData with
                 | Some v => v
                 | None => quiz old
                 end
          else new = old)
       (steps c) (steps merged).
Proof.
  intros Hm [Hcs _] Hfind. rewrite <- Hcs in Hfind.
  pose proof (handleUpdateStep_run r env s courseId stepNo newStepData c Hm Hfind)
    as (_ & _ & _ & Hrun).
  rewrite Hcs in Hfind.
  assert (has_id courseId c = true) as Hc by (apply (find_some _ _ Hfind)).
  cbn zeta in *.
  split; [|split; [|split; [repeat split|]]].
  3:{ cbn [steps with_steps]. clear.
      induction (steps c) as [|old olds IH]; cbn [map]; constructor;
        [|exact IH].
      destruct (stepNumber old =? stepNo)%Z; [|reflexivity].
      repeat split. }
  - intros Hok. cbn [steps with_steps] in Hok. fold (updateSteps stepNo newStepData (steps c)) in Hok.
    rewrite Hok in Hrun. destruct Hrun as [-> ->]. split.
    + rewrite find_replaceCourse by (rewrite has_id_with_steps; exact Hc).
      rewrite Hfind. reflexivity.
    + rewrite toasts_app. cbn [toasts]. apply app_nil_r.
  - intros e Hfail. cbn [steps with_steps] in Hfail. fold (updateSteps stepNo newStepData (steps c)) in Hfail.
    rewrite Hfail in Hrun. destruct Hrun as [-> ->]. split.
    + rewrite !find_replaceCourse
        by (try rewrite has_id_with_steps; exact Hc).
      rewrite Hfind. reflexivity.
    + rewrite toasts_app. reflexivity.
Qed.

(** Where no two courses share an id, a failed update leaves the whole
    collection as it was. *)
Lemma handleUpdateStep_rollback_whole (r : Render) (env : Env) (s : Store)
    (courseId : string) (stepNo : Z) (newStepData : PartialStep)
    (c : Course) (e : Thrown) :
  mounted r = true -> fresh r s ->
  find (has_id courseId) (st_courses s) = Some c ->
  (forall c', In c' (st_courses s) -> has_id courseId c' = true -> c' = c) ->
  updateCourse env courseId (updateSteps stepNo newStepData (steps c)) = Abrupt e ->
  st_courses (snd (handleUpdateStep r env courseId stepNo newStepData s))
  = st_courses s.
Proof.
  intros Hm [Hcs _] Hfind Huniq Hfail. rewrite <- Hcs in Hfind.
  pose proof (handleUpdateStep_run r env s courseId stepNo newStepData c Hm Hfind)
    as (_ & _ & _ & Hrun).
  cbn zeta in Hrun. rewrite Hfail in Hrun. destruct Hrun as [-> _].
  rewrite Hcs in Hfind. apply replaceCourse_revert; [|exact Huniq].
  rewrite has_id_with_steps. apply (find_some _ _ Hfind).
Qed.

(** An update does nothing before the page is mounted or for a course
    the collection does not have. *)
Lemma handleUpdateStep_noop (r : Render) (env : Env) (s : Store)
    (courseId : string) (stepNo : Z) (newStepData : PartialStep) :
  mounted r = false \/ find (has_id courseId) (courses r) = None ->
  handleUpdateStep r env courseId stepNo newStepData s = (Normal tt, s).
Proof.
  unfold handleUpdateStep. intros [-> | ->]; [reflexivity|].
  destruct (mounted r); reflexivity.
Qed.

(** ** Deleting a course *)

(** How [handleDeleteCourse] runs on a mounted page. *)
Lemma handleDeleteCourse_run (r : Render) (env : Env) (s : Store)
    (courseId : string) :
  mounted r = true ->
  let remaining := filter (fun c => negb (has_id courseId c)) (st_courses s) in
  let clearing :=
    if is_id (activeCourseId r) courseId then [SetActiveCourseId None] else [] in
  let cleared :=
    if is_id (activeCourseId r) courseId then None else st_activeCourseId s in
  let out := handleDeleteCourse r env courseId s in
  fst out = Normal tt
  /\ st_activeCourseId (snd out) = cleared
  /\ st_generationState (snd out) = st_generationState s
  /\ match deleteCourseFromDb env courseId with
     | Normal _ =>
         st_courses (snd out) = remaining
         /\ st_events (snd out)
            = st_events s
              ++ SetCourses remaining :: clearing
              ++ [Called (CallDeleteCourse courseId)]
     | Abrupt e =>
         st_courses (snd out) = courses r
         /\ st_events (snd out)
            = st_events s
              ++ SetCourses remaining :: clearing
              ++ [Called (CallDeleteCourse courseId);
                  delete_log e;
                  ToastShown deletion_toast;
                  SetCourses (courses r)]
     end.
Proof.
  intros Hm. unfold handleDeleteCourse. rewrite Hm. cbn [negb].
  run_handler.
  destruct (is_id (activeCourseId r) courseId); run_handler;
    destruct (deleteCourseFromDb env courseId) as [[]|e]; run_handler;
    repeat split.
Qed.

(** C2: a deletion on a mounted page whose handler sees the current
    store.  Before the remote delete is even called, the collection is set
    to what it was without the courses of that id, and the selection is
    set to null if it was that id.  If the remote delete fails, the error
    is logged, one notification is shown and the collection is set back to
    exactly the list it was, every course in its place. *)
Theorem handleDeleteCourse_optimistic (r : Render) (env : Env) (s : Store)
    (courseId : string) :
  mounted r = true -> fresh r s ->
  let remaining := filter (fun c => negb (has_id courseId c)) (st_courses s) in
  let clearing :=
    if is_id (st_activeCourseId s) courseId then [SetActiveCourseId None]
    else [] in
  let s' := snd (handleDeleteCourse r env courseId s) in
  find (has_id courseId) remaining = None
  /\ (forall c, In c (st_courses s) -> id c <> courseId -> In c remaining)
  /\ (exists settled,
         st_events s'
         = st_events s
           ++ SetCourses remaining :: clearing
           ++ Called (CallDeleteCourse courseId) :: settled)
  /\ (st_activeCourseId s = Some courseId -> st_activeCourseId s' = None)
  /\ (deleteCourseFromDb env courseId = Normal tt ->
      st_courses s' = remaining)
  /\ (forall e, deleteCourseFromDb env courseId = Abrupt e ->
      st_courses s' = st_courses s
      /\ toasts (st_events s') = toasts (st_events s) ++ [deletion_toast]
      /\ st_events s'
         = st_events s
           ++ SetCourses remaining :: clearing
           ++ [Called (CallDeleteCourse courseId);
               delete_log e;
               ToastShown deletion_toast;
               SetCourses (st_courses s)]).
Proof.
  intros Hm [Hcs Hact].
  pose proof (handleDeleteCourse_run r env s courseId Hm)
    as (_ & Hsel & _ & Hrun).
  cbn zeta in *. rewrite Hact in Hsel, Hrun. rewrite Hcs in Hrun.
  split; [apply find_filter_out|].
  split.
  { intros c Hin Hne. apply filter_In. split; [exact Hin|].
    unfold has_id. apply negb_true_iff, String.eqb_neq. exact Hne. }
  split.
  { destruct (deleteCourseFromDb env courseId) as [[]|e];
      destruct Hrun as [_ ->]; eexists; reflexivity. }
  split.
  { intros Hactive. rewrite Hsel, Hactive. cbn [is_id].
    rewrite String.eqb_refl. reflexivity. }
  split.
  { intros Hok. rewrite Hok in Hrun. apply Hrun. }
  intros e Hfail. rewrite Hfail in Hrun. destruct Hrun as [-> ->].
  split; [reflexivity|]. split; [|reflexivity].
  rewrite toasts_app. f_equal. cbn [toasts].
  rewrite toasts_app. destruct (is_id (st_activeCourseId s) courseId);
    reflexivity.
Qed.

(** C10: when the course being deleted is the active one and the remote
    delete fails, the collection is set back to what it was but the
    selection is not: it stays null, and the page has no active course
    although the course is in the collection again. *)
Theorem handleDeleteCourse_selection_not_restored (r : Render) (env : Env)
    (s : Store) (courseId : string) (e : Thrown) :
  mounted r = true -> fresh r s ->
  st_activeCourseId s = Some courseId ->
  deleteCourseFromDb env courseId = Abrupt e ->
  let s' := snd (handleDeleteCourse r env courseId s) in
  st_courses s' = st_courses s
  /\ st_activeCourseId s' = None
  /\ activeCourse (st_courses s') (st_activeCourseId s') = None
  /\ activeCourse (st_courses s) (st_activeCourseId s)
     = find (has_id courseId) (st_courses s).
Proof.
  intros Hm [Hcs Hact] Hactive Hfail.
  pose proof (handleDeleteCourse_run r env s courseId Hm)
    as (_ & Hsel & _ & Hrun).
  cbn zeta in *. rewrite Hfail in Hrun. destruct Hrun as [Hcourses _].
  rewrite Hact, Hactive in Hsel. cbn [is_id] in Hsel.
  rewrite String.eqb_refl in Hsel.
  rewrite Hcourses, Hsel, Hcs, Hactive.
  repeat split. apply activeCourse_null.
Qed.

(** ** Generating a course *)

Lemma handleGenerateCourse_unauthenticated (r : Render) (env : Env) (s : Store)
    (topic : string) (depth : Depth) :
  user r = None \/ mounted r = false ->
  handleGenerateCourse JSON_stringify r env topic depth s
  = (Normal tt, emit (ToastShown authentication_toast) s).
Proof.
  unfold handleGenerateCourse.
  intros [-> | ->]; [reflexivity | destruct (user r); reflexivity].
Qed.

(** The call to the generation action is rejected. *)
Lemma handleGenerateCourse_rejected (r : Render) (env : Env) (s : Store)
    (topic : string) (depth : Depth) (u : User) (e : Thrown) :
  user r = Some u -> mounted r = true ->
  generateCourseAction env (generate_input topic depth) = Abrupt e ->
  handleGenerateCourse JSON_stringify r env topic depth s
  = (Normal tt,
     generation_failed s
       [SetGenerationState {| status := generating |};
        Called (CallGenerateCourseAction (generate_input topic depth))]
       e).
Proof.
  intros Hu Hm Hgen. unfold handleGenerateCourse. rewrite Hu, Hm.
  run_handler. rewrite Hgen.
  run_handler. reflexivity.
Qed.

(** The call to the generation action resolves with no step at all: the
    page's own check throws. *)
Lemma handleGenerateCourse_zero_steps (r : Render) (env : Env) (s : Store)
    (topic : string) (depth : Depth) (u : User) (result : Output) :
  user r = Some u -> mounted r = true ->
  generateCourseAction env (generate_input topic depth) = Normal result ->
  course result = [] ->
  handleGenerateCourse JSON_stringify r env topic depth s
  = (Normal tt,
     generation_failed s
       [SetGenerationState {| status := generating |};
        Called (CallGenerateCourseAction (generate_input topic depth))]
       (ErrorObject Actions.zero_steps_message)).
Proof.
  intros Hu Hm Hgen Hnil. unfold handleGenerateCourse. rewrite Hu, Hm.
  run_handler. rewrite Hgen.
  run_handler. rewrite Hnil. cbn [map length Nat.eqb]. run_handler.
  reflexivity.
Qed.

(** The call resolves with steps: the course is persisted, and what
    follows depends on how that call settles. *)
Lemma handleGenerateCourse_persist (r : Render) (env : Env) (s : Store)
    (topic : string) (depth : Depth) (u : User) (result : Output) :
  user r = Some u -> mounted r = true ->
  generateCourseAction env (generate_input topic depth) = Normal result ->
  course result <> [] ->
  let data :=
    newCourseData JSON_stringify env u topic depth result
      (map newStep (course result)) in
  let called :=
    [SetGenerationState {| status := generating |};
     Called (CallGenerateCourseAction (generate_input topic depth));
     Called (CallAddCourse data)] in
  handleGenerateCourse JSON_stringify r env topic depth s
  = (Normal tt,
     match addCourse env data with
     | Normal newCourseId =>
         let newCourse := with_id newCourseId data in
         {| st_courses := newCourse :: st_courses s;
            st_activeCourseId := Some newCourseId;
            st_generationState := {| status := done |};
            st_events :=
              st_events s ++ called
              ++ [SetCourses (newCourse :: st_courses s);
                  SetActiveCourseId (Some newCourseId);
                  SetGenerationState {| status := done |}] |}
     | Abrupt e => generation_failed s called e
     end).
Proof.
  intros Hu Hm Hgen Hne. unfold handleGenerateCourse. rewrite Hu, Hm.
  run_handler. rewrite Hgen.
  assert ((length (map newStep (course result)) =? 0)%nat = false) as Hlen.
  { rewrite length_map. destruct (course result); [contradiction|reflexivity]. }
  run_handler. rewrite Hlen. run_handler.
  destruct (addCourse env
              (newCourseData JSON_stringify env u topic depth result
                 (map newStep (course result)))) as [newCourseId|e];
    run_handler; reflexivity.
Qed.

(** The steps of a generated course follow the outline entry by entry. *)
Lemma newStep_steps (os : list OutlineStep) :
  length (map newStep os) = length os
  /\ Forall (fun st : Step => completed st = false) (map newStep os)
  /\ map stepNumber (map newStep os) = map o_step os.
Proof.
  split; [apply length_map|]. split.
  - apply Forall_forall. intros st Hin. apply in_map_iff in Hin.
    destruct Hin as (o & <- & _). reflexivity.
  - rewrite map_map. reflexivity.
Qed.

(** C3, as the code has it: in every successful generation the new course
    is the first of the collection, its steps are as many as the outline
    entries the action returned, each has [completed = false], and their
    step numbers are the entries' step numbers in the same order.  They are
    strictly increasing exactly when the entries' numbers are. *)
Theorem generated_steps_follow_outline (r : Render) (env : Env) (s : Store)
    (topic : string) (depth : Depth) (u : User) (result : Output)
    (newCourseId : string) :
  user r = Some u -> mounted r = true ->
  generateCourseAction env (generate_input topic depth) = Normal result ->
  course result <> [] ->
  addCourse env
    (newCourseData JSON_stringify env u topic depth result
       (map newStep (course result)))
  = Normal newCourseId ->
  let s' := snd (handleGenerateCourse JSON_stringify r env topic depth s) in
  st_generationState s' = {| status := done |}
  /\ exists newCourse,
      st_courses s' = newCourse :: st_courses s
      /\ length (steps newCourse) = length (course result)
      /\ Forall (fun st : Step => completed st = false) (steps newCourse)
      /\ map stepNumber (steps newCourse) = map o_step (course result)
      /\ (Sorted Z.lt (map stepNumber (steps newCourse))
          <-> Sorted Z.lt (map o_step (course result))).
Proof.
  intros Hu Hm Hgen Hne Hadd. cbn zeta.
  rewrite (handleGenerateCourse_persist r env s topic depth u result Hu Hm Hgen Hne).
  cbn zeta. rewrite Hadd. cbn [snd st_generationState st_courses].
  split; [reflexivity|]. eexists. split; [reflexivity|].
  cbn [steps with_id d_steps newCourseData].
  destruct (newStep_steps (course result)) as (Hlen & Hcompleted & Hnumbers).
  repeat split; try assumption; rewrite Hnumbers; trivial.
Qed.

(** A generation that leaves the state at [done], not having found it
    there, went through both calls with success. *)
Lemma handleGenerateCourse_done_inv (r : Render) (env : Env) (s : Store)
    (topic : string) (depth : Depth) :
  st_generationState s <> {| status := done |} ->
  st_generationState (snd (handleGenerateCourse JSON_stringify r env topic depth s))
  = {| status := done |} ->
  exists u result newCourseId,
    user r = Some u /\ mounted r = true
    /\ generateCourseAction env (generate_input topic depth) = Normal result
    /\ course result <> []
    /\ addCourse env
         (newCourseData JSON_stringify env u topic depth result
            (map newStep (course result)))
       = Normal newCourseId.
Proof.
  intros Hbefore Hdone.
  destruct (user r) as [u|] eqn:Hu.
  2:{ rewrite handleGenerateCourse_unauthenticated in Hdone by (left; exact Hu).
      contradiction. }
  destruct (mounted r) eqn:Hm.
  2:{ rewrite handleGenerateCourse_unauthenticated in Hdone by (right; exact Hm).
      contradiction. }
  destruct (generateCourseAction env (generate_input topic depth))
    as [result|e] eqn:Hgen.
  2:{ rewrite (handleGenerateCourse_rejected r env s topic depth u e Hu Hm Hgen)
        in Hdone. discriminate. }
  destruct (course result) as [|o os] eqn:Hc.
  { rewrite (handleGenerateCourse_zero_steps r env s topic depth u result Hu Hm Hgen Hc)
      in Hdone. discriminate. }
  assert (course result <> []) as Hne by (rewrite Hc; discriminate).
  rewrite (handleGenerateCourse_persist r env s topic depth u result Hu Hm Hgen Hne)
    in Hdone.
  cbn zeta in Hdone. rewrite Hc in *.
  destruct (addCourse env _) as [newCourseId|e] eqn:Hadd; [|discriminate].
  exists u, result, newCourseId. rewrite Hc. repeat split; assumption.
Qed.

(** C5: once the generation action has returned steps, the new course is
    sent to [addCourse] before anything else.  If that call succeeds, the
    course with the id it gave is put at index 0 of the collection, then
    made the active selection, then the state is set to [done], in this
    order.  If it fails, the state is set back to [idle], the collection
    and the selection are what they were, and the notification carries the
    message of the error if it is an [Error] and a generic message
    otherwise. *)
Theorem handleGenerateCourse_accepted (r : Render) (env : Env) (s : Store)
    (topic : string) (depth : Depth) (u : User) (result : Output) :
  user r = Some u -> mounted r = true ->
  generateCourseAction env (generate_input topic depth) = Normal result ->
  course result <> [] ->
  let data :=
    newCourseData JSON_stringify env u topic depth result
      (map newStep (course result)) in
  let called :=
    [SetGenerationState {| status := generating |};
     Called (CallGenerateCourseAction (generate_input topic depth));
     Called (CallAddCourse data)] in
  let s' := snd (handleGenerateCourse JSON_stringify r env topic depth s) in
  (forall newCourseId, addCourse env data = Normal newCourseId ->
     let newCourse := with_id newCourseId data in
     st_events s'
     = st_events s ++ called
       ++ [SetCourses (newCourse :: st_courses s);
           SetActiveCourseId (Some newCourseId);
           SetGenerationState {| status := done |}]
     /\ st_courses s' = newCourse :: st_courses s
     /\ nth_error (st_courses s') 0 = Some newCourse
     /\ st_activeCourseId s' = Some (id newCourse)
     /\ activeCourse (st_courses s') (st_activeCourseId s') = Some newCourse
     /\ st_generationState s' = {| status := done |}
     /\ toasts (st_events s') = toasts (st_events s))
  /\ (forall e, addCourse env data = Abrupt e ->
     st_events s' = st_events s ++ called ++ generation_catch e
     /\ st_courses s' = st_courses s
     /\ st_activeCourseId s' = st_activeCourseId s
     /\ st_generationState s' = {| status := idle |}
     /\ toasts (st_events s') = toasts (st_events s) ++ [generation_toast e]
     /\ description (generation_toast e)
        = match e with
          | ErrorObject message => message
          | NonError _ => "An unknown error occurred."
          end).
Proof.
  intros Hu Hm Hgen Hne. cbn zeta.
  rewrite (handleGenerateCourse_persist r env s topic depth u result Hu Hm Hgen Hne).
  cbn zeta. split.
  - intros newCourseId ->.
    cbn [snd st_events st_courses st_activeCourseId st_generationState
         nth_error id with_id activeCourse find id_is].
    rewrite String.eqb_refl.
    repeat split. rewrite !toasts_app. cbn [toasts]. apply app_nil_r.
  - intros e ->.
    cbn [snd generation_failed st_events st_courses st_activeCourseId
         st_generationState].
    repeat split; [|destruct e; reflexivity..].
    rewrite !toasts_app. reflexivity.
Qed.

(** Whatever the generation action throws is shown with the same rule,
    and the state is set back to [idle]. *)
Lemma handleGenerateCourse_rejected_toast (r : Render) (env : Env) (s : Store)
    (topic : string) (depth : Depth) (u : User) (e : Thrown) :
  user r = Some u -> mounted r = true ->
  generateCourseAction env (generate_input topic depth) = Abrupt e ->
  let s' := snd (handleGenerateCourse JSON_stringify r env topic depth s) in
  st_generationState s' = {| status := idle |}
  /\ st_courses s' = st_courses s
  /\ toasts (st_events s') = toasts (st_events s) ++ [generation_toast e].
Proof.
  intros Hu Hm Hgen. cbn zeta.
  rewrite (handleGenerateCourse_rejected r env s topic depth u e Hu Hm Hgen).
  cbn [snd generation_failed st_events st_courses st_generationState].
  repeat split. rewrite !toasts_app. reflexivity.
Qed.

(** C6, as the code has it: external links and quiz go into the step
    exactly as the outline entry has them, present or absent.  The fun fact
    goes into the step when the entry has one that is not the empty
    string, and then unchanged; an entry without a fun fact, or with the
    empty string for one, gives a step without a fun fact. *)
Theorem newStep_optional_fields (o : OutlineStep) :
  externalLinks (newStep o) = o_externalLinks o
  /\ quiz (newStep o) = o_quiz o
  /\ (forall text, funFact (newStep o) = Some text <->
                   o_funFact o = Some text /\ text <> "")
  /\ (funFact (newStep o) = None <->
      o_funFact o = None \/ o_funFact o = Some "").
Proof.
  unfold newStep. cbn [externalLinks quiz funFact].
  split; [destruct (o_externalLinks o); reflexivity|].
  split; [destruct (o_quiz o); reflexivity|].
  destruct (o_funFact o) as [fact|]; cbn [truthy_string assign_if].
  - destruct (String.eqb_spec fact "") as [->|Hne]; cbn [negb].
    + split.
      * intros text. split; [discriminate|]. intros [[= <-] Hne]. contradiction.
      * split; [right; reflexivity | reflexivity].
    + split.
      * intros text. split.
        -- intros [= <-]. split; [reflexivity | exact Hne].
        -- intros [[= <-] _]. reflexivity.
      * split; [discriminate|]. intros [H|[= H]]; [discriminate | contradiction].
  - split.
    + intros text. split; [discriminate|]. intros [H _]. discriminate.
    + split; [left|]; reflexivity.
Qed.

End PageProperties.

(** ** The generation action *)

Section ActionProperties.
Context {ExternalLink Quiz : Type}.
Local Abbreviation Output := (GenerateFullCourseOutput ExternalLink Quiz).
Local Abbreviation Store := (Store ExternalLink Quiz).
Local Abbreviation Render := (Render ExternalLink Quiz).
Local Abbreviation Env := (@Env ExternalLink Quiz).
Variable JSON_stringify : list OutlineEntry -> string.
Variable generateFullCourse : GenerateFullCourseInput -> Completion Output.

(** The action rejects with one message, whatever went wrong: the flow
    threw, or the flow returned no step. *)
Lemma generateCourseAction_rejects (input : GenerateFullCourseInput) :
  (forall e, generateFullCourse input = Abrupt e ->
     fst (Actions.generateCourseAction generateFullCourse input)
     = Abrupt (ErrorObject Actions.unable_message))
  /\ (forall result, generateFullCourse input = Normal result ->
        course result = [] ->
        Actions.generateCourseAction generateFullCourse input
        = (Abrupt (ErrorObject Actions.unable_message),
           [[LogText "Error in generateCourseAction:";
             LogThrown (ErrorObject Actions.zero_steps_message)]])).
Proof.
  unfold Actions.generateCourseAction. split.
  - intros e ->. reflexivity.
  - intros result -> ->. reflexivity.
Qed.

(** What the action returns has at least one step. *)
Lemma generateCourseAction_resolves (input : GenerateFullCourseInput)
    (result : Output) :
  fst (Actions.generateCourseAction generateFullCourse input) = Normal result ->
  generateFullCourse input = Normal result /\ course result <> [].
Proof.
  unfold Actions.generateCourseAction.
  destruct (generateFullCourse input) as [res|e]; [|discriminate].
  destruct (course res) as [|o os] eqn:Hc; cbn [length Nat.eqb fst];
    [discriminate|].
  intros [= <-]. split; [reflexivity|]. rewrite Hc. discriminate.
Qed.

(** The question action rejects whenever the flow does, keeping the
    message of an [Error]. *)
Lemma askQuestionAction_rejects
    (askStepQuestion : AskStepQuestionInput -> Completion AskStepQuestionOutput)
    (input : AskStepQuestionInput) (e : Thrown) :
  askStepQuestion input = Abrupt e ->
  fst (Actions.askQuestionAction askStepQuestion input)
  = Abrupt (ErrorObject (message_or e Actions.unknown_answer_message)).
Proof. unfold Actions.askQuestionAction. intros ->. reflexivity. Qed.

(** Over the deployed action, a question the flow fails to answer gets the
    fallback answer. *)
Lemma deployed_ask_failure (r : Render) (env : Env) (s : Store)
    (askStepQuestion : AskStepQuestionInput -> Completion AskStepQuestionOutput)
    (c : Course ExternalLink Quiz) (step : Step ExternalLink Quiz)
    (question : string) (e : Thrown) :
  mounted r = true ->
  askStepQuestion (question_input c step question) = Abrupt e ->
  fst (handleAskQuestion r (deployed env generateFullCourse askStepQuestion)
         c step question s)
  = Normal fallback_answer.
Proof.
  intros Hm Hflow. unfold handleAskQuestion. rewrite Hm. cbn [negb].
  run_handler. cbn [deployed askQuestionAction].
  rewrite (askQuestionAction_rejects _ _ e Hflow). reflexivity.
Qed.

Lemma zero_steps_message_distinct :
  Actions.zero_steps_message <> Actions.unable_message.
Proof. discriminate. Qed.

(** The page over the deployed action, when the flow returns no step: the
    page shows the message of a rejected call, not the message of its own
    check for an empty course. *)
Lemma deployed_zero_steps (r : Render) (env : Env) (s : Store)
    (topic : string) (depth : Depth) (u : User)
    (askStepQuestion : AskStepQuestionInput -> Completion AskStepQuestionOutput)
    (result : Output) :
  user r = Some u -> mounted r = true ->
  generateFullCourse (generate_input topic depth) = Normal result ->
  course result = [] ->
  let s' :=
    snd (handleGenerateCourse JSON_stringify r
           (deployed env generateFullCourse askStepQuestion) topic depth s) in
  st_generationState s' = {| status := idle |}
  /\ st_courses s' = st_courses s
  /\ toasts (st_events s')
     = toasts (st_events s)
       ++ [generation_toast (ErrorObject Actions.unable_message)].
Proof.
  intros Hu Hm Hflow Hnil.
  apply handleGenerateCourse_rejected_toast with (u := u); try assumption.
  cbn [deployed generateCourseAction].
  destruct (generateCourseAction_rejects (generate_input topic depth))
    as [_ Hzero].
  rewrite (Hzero result Hflow Hnil). reflexivity.
Qed.

End ActionProperties.

(** * The scenarios, run

    Each property above at the inputs of the worked scenarios. *)

(** Step 2 of [C] is marked completed.  When the update is saved the
    steps are [[{1, false}, {2, true}]]; when it is not, [C] is as before. *)
Lemma handleUpdateStep_optimistic_witness :
  find (has_id "C")
    (st_courses (snd (handleUpdateStep page (online []) "C" 2 mark_completed shelf)))
  = Some (plain_course "C" [plain_step 1 false; plain_step 2 true])
  /\ find (has_id "C")
       (st_courses (snd (handleUpdateStep page offline "C" 2 mark_completed shelf)))
     = Some courseC.
Proof.
  split.
  - apply (handleUpdateStep_optimistic page (online []) shelf
             "C" 2 mark_completed courseC
             eq_refl (conj eq_refl eq_refl) eq_refl).
    reflexivity.
  - apply (handleUpdateStep_optimistic page offline shelf
             "C" 2 mark_completed courseC
             eq_refl (conj eq_refl eq_refl) eq_refl)
      with (e := unavailable).
    reflexivity.
Defined.

(** [A] is deleted and the remote delete is rejected: the collection is
    [[A, B, C]] again and the notification is shown. *)
Lemma handleDeleteCourse_optimistic_witness :
  let s' := snd (handleDeleteCourse page offline "A" shelf) in
  st_courses s' = [courseA; courseB; courseC]
  /\ toasts (st_events s') = [deletion_toast].
Proof.
  destruct (handleDeleteCourse_optimistic page offline shelf "A"
              eq_refl (conj eq_refl eq_refl))
    as (_ & _ & _ & _ & _ & Hfail).
  destruct (Hfail unavailable eq_refl) as (Hcourses & Htoasts & _).
  split; [exact Hcourses | exact Htoasts].
Defined.

(** After that failed deletion of the selected course nothing is
    selected. *)
Lemma handleDeleteCourse_selection_not_restored_witness :
  let s' := snd (handleDeleteCourse page offline "A" shelf) in
  st_activeCourseId s' = None
  /\ activeCourse (st_courses s') (st_activeCourseId s') = None
  /\ activeCourse (st_courses shelf) (st_activeCourseId shelf) = Some courseA.
Proof.
  destruct (handleDeleteCourse_selection_not_restored page offline
              shelf "A" unavailable
              eq_refl (conj eq_refl eq_refl) eq_refl eq_refl)
    as (_ & Hsel & Hnone & Hbefore).
  split; [exact Hsel|]. split; [exact Hnone|].
  rewrite Hbefore. reflexivity.
Defined.

(** An outline of two entries gives a course of two steps, none
    completed, numbered as the entries are. *)
Lemma generated_steps_follow_outline_witness :
  let s' :=
    snd (handleGenerateCourse no_outline page
           (online [entry 1 None; entry 2 None]) "X" depth15 shelf) in
  st_generationState s' = {| status := done |}
  /\ exists newCourse,
      st_courses s' = newCourse :: st_courses shelf
      /\ length (steps newCourse) = 2%nat
      /\ Forall (fun st => completed st = false) (steps newCourse)
      /\ map stepNumber (steps newCourse) = [1%Z; 2%Z].
Proof.
  destruct (generated_steps_follow_outline no_outline page
              (online [entry 1 None; entry 2 None]) shelf "X" depth15
              alice {| course := [entry 1 None; entry 2 None] |} "N"
              eq_refl eq_refl eq_refl ltac:(discriminate) eq_refl)
    as (Hdone & newCourse & Hcourses & Hlen & Hcompleted & Hnumbers & _).
  split; [exact Hdone|].
  exists newCourse. repeat split; assumption.
Defined.

(** An accepted generation is saved, put first, selected and marked
    done; with the database down the state goes back to idle and the
    error's message is shown. *)
Lemma handleGenerateCourse_accepted_witness :
  (let s' :=
     snd (handleGenerateCourse no_outline page
            (online [entry 1 None]) "X" depth15 shelf) in
   st_activeCourseId s' = Some "N"
   /\ st_generationState s' = {| status := done |})
  /\ (let s' :=
        snd (handleGenerateCourse no_outline page
               (database_down [entry 1 None]) "X" depth15 shelf) in
      st_generationState s' = {| status := idle |}
      /\ toasts (st_events s') = [generation_toast unavailable]).
Proof.
  split.
  - destruct (handleGenerateCourse_accepted no_outline page
                (online [entry 1 None]) shelf "X" depth15
                alice {| course := [entry 1 None] |}
                eq_refl eq_refl eq_refl ltac:(discriminate))
      as [Hok _].
    destruct (Hok "N" eq_refl) as (_ & _ & _ & Hsel & _ & Hdone & _).
    split; [exact Hsel | exact Hdone].
  - destruct (handleGenerateCourse_accepted no_outline page
                (database_down [entry 1 None]) shelf "X" depth15
                alice {| course := [entry 1 None] |}
                eq_refl eq_refl eq_refl ltac:(discriminate))
      as [_ Hfail].
    destruct (Hfail unavailable eq_refl) as (_ & _ & _ & Hidle & Htoasts & _).
    split; [exact Hidle | exact Htoasts].
Defined.

(** A question asked too early gets the placeholder and calls nothing;
    a question that cannot be answered gets the fallback. *)
Lemma handleAskQuestion_absorbs_witness :
  handleAskQuestion unmounted_page offline courseC (plain_step 1 false) "Why?" shelf
  = (Normal placeholder_answer, shelf)
  /\ fst (handleAskQuestion page offline courseC (plain_step 1 false) "Why?" shelf)
     = Normal fallback_answer.
Proof.
  split.
  - destruct (handleAskQuestion_absorbs unmounted_page offline shelf courseC
                (plain_step 1 false) "Why?")
      as (_ & Hearly & _).
    destruct (Hearly eq_refl) as (Hanswer & Hstore & _).
    rewrite (surjective_pairing (handleAskQuestion _ _ _ _ _ _)).
    rewrite Hanswer, Hstore. reflexivity.
  - destruct (handleAskQuestion_absorbs page offline shelf courseC
                (plain_step 1 false) "Why?")
      as (_ & _ & Hfail & _).
    exact (proj1 (Hfail unavailable eq_refl eq_refl)).
Defined.

(** Selecting an id the collection does not have, or none, shows no
    course; selecting [B] shows [B]. *)
Lemma activeCourse_is_lookup_witness :
  activeCourse [courseA; courseB] (Some "Z") = None
  /\ activeCourse [courseA; courseB] None = None
  /\ activeCourse [courseA; courseB] (Some "B") = Some courseB.
Proof.
  destruct (@activeCourse_is_lookup string string)
    as (Hfirst & Habsent & Hnull & _).
  split; [|split].
  - apply Habsent. intros c [<- | [<- | []]]; discriminate.
  - apply Hnull.
  - apply Hfirst. exists [courseA], []. split; [reflexivity|].
    split; [reflexivity|]. intros c' [<- | []]. discriminate.
Defined.

(** The fetch is rejected: the collection stays [[A, B, C]] and the
    notification is shown. *)
Lemma fetchCourses_failure_witness :
  let out := fetchCourses page offline shelf in
  fst out = Normal tt
  /\ st_courses (snd out) = [courseA; courseB; courseC]
  /\ toasts (st_events (snd out)) = [load_toast].
Proof.
  destruct (fetchCourses_failure page offline shelf alice unavailable
              eq_refl eq_refl eq_refl)
    as (Hnormal & Hcourses & _ & _ & Hevents).
  split; [exact Hnormal|]. split; [exact Hcourses|].
  rewrite Hevents. reflexivity.
Defined.

(** C3 as stated fails: the action returns entries numbered 2 then 1,
    the generation succeeds, and the steps of the new course are numbered
    2 then 1. *)
Lemma generated_steps_not_increasing :
  let s' :=
    snd (handleGenerateCourse no_outline page
           (online [entry 2 None; entry 1 None]) "X" depth15 shelf) in
  st_generationState s' = {| status := done |}
  /\ exists newCourse,
      nth_error (st_courses s') 0 = Some newCourse
      /\ map stepNumber (steps newCourse) = [2%Z; 1%Z]
      /\ ~ Sorted Z.lt (map stepNumber (steps newCourse)).
Proof.
  split; [reflexivity|]. eexists. split; [reflexivity|].
  split; [reflexivity|].
  cbn. intros Hsorted. inversion Hsorted as [|? ? _ Hhd]. subst.
  inversion Hhd as [|? ? Hlt]. subst. lia.
Qed.

(** C6 as stated fails: the entry has a fun fact, the empty string, and
    the step made from it has none. *)
Lemma empty_fun_fact_dropped :
  o_funFact (entry 1 (Some "")) = Some ""
  /\ funFact (newStep (entry 1 (Some ""))) = None.
Proof. split; reflexivity. Qed.

(** The flow returns no step: the page, over the deployed action, ends
    at idle with the collection as it was and shows one notification, with
    the action's text, as it does when the flow itself fails. *)
Lemma zero_steps_shown_as_rejected_call :
  let ask := fun _ : AskStepQuestionInput => Normal {| answer := "Because." |} in
  let run flow :=
    snd (handleGenerateCourse no_outline page
           (deployed (online []) flow ask) "X" depth15 shelf) in
  let zero := run (fun _ => Normal {| course := [] |}) in
  let failed := run (fun _ => Abrupt (ErrorObject "fetch failed")) in
  st_generationState zero = {| status := idle |}
  /\ st_courses zero = st_courses shelf
  /\ toasts (st_events zero)
     = [generation_toast (ErrorObject Actions.unable_message)]
  /\ toasts (st_events failed) = toasts (st_events zero)
  /\ map description (toasts (st_events zero)) <> [Actions.zero_steps_message].
Proof.
  cbv zeta. repeat split. discriminate.
Qed.

(** * Further properties of the actions and of the page *)

Section ActionBehaviour.
Context {ExternalLink Quiz : Type}.
Local Abbreviation Output := (GenerateFullCourseOutput ExternalLink Quiz).
Variable generateFullCourse : GenerateFullCourseInput -> Completion Output.
Variable askStepQuestion :
  AskStepQuestionInput -> Completion AskStepQuestionOutput.

(** X1: the generation action resolves exactly when the flow resolved
    with at least one step; it then returns the flow's result as it is
    and logs nothing. *)
Theorem generateCourseAction_resolves_iff (input : GenerateFullCourseInput)
    (result : Output) :
  fst (Actions.generateCourseAction generateFullCourse input) = Normal result
  <-> generateFullCourse input = Normal result /\ course result <> [].
Proof.
  unfold Actions.generateCourseAction.
  destruct (generateFullCourse input) as [res|e].
  - destruct (course res) as [|o os] eqn:Hc; cbn [length Nat.eqb fst].
    + split; [discriminate|]. intros [[= ->] Hne]. contradiction.
    + split.
      * intros [= <-]. split; [reflexivity|]. rewrite Hc. discriminate.
      * intros [[= ->] _]. reflexivity.
  - split; [discriminate|]. intros [H _]. discriminate.
Qed.

(** X2: whatever makes the generation action reject, the error it
    throws is an [Error] with one fixed message, and the one line it logs
    carries the cause: what the flow threw, or the zero-steps error when
    the flow returned no step. *)
Theorem generateCourseAction_one_message (input : GenerateFullCourseInput)
    (e : Thrown) :
  fst (Actions.generateCourseAction generateFullCourse input) = Abrupt e ->
  e = ErrorObject Actions.unable_message
  /\ exists cause,
      snd (Actions.generateCourseAction generateFullCourse input)
      = [[LogText "Error in generateCourseAction:"; LogThrown cause]]
      /\ (generateFullCourse input = Abrupt cause
          \/ (cause = ErrorObject Actions.zero_steps_message
              /\ exists result,
                  generateFullCourse input = Normal result
                  /\ course result = [])).
Proof.
  unfold Actions.generateCourseAction.
  destruct (generateFullCourse input) as [res|cause].
  - destruct (course res) as [|o os] eqn:Hc; cbn [length Nat.eqb fst snd];
      [|discriminate].
    intros [= <-]. split; [reflexivity|].
    exists (ErrorObject Actions.zero_steps_message). split; [reflexivity|].
    right. split; [reflexivity|]. exists res. split; [reflexivity | exact Hc].
  - cbn [fst snd]. intros [= <-]. split; [reflexivity|].
    exists cause. split; [reflexivity|]. left. reflexivity.
Qed.

(** X3: the question action returns the flow's answer as it is and logs
    nothing; when the flow throws, it throws an [Error] again, with the
    same message if the flow threw an [Error] and with the fixed message
    otherwise. *)
Theorem askQuestionAction_passes_through (input : AskStepQuestionInput) :
  (forall out, askStepQuestion input = Normal out ->
     Actions.askQuestionAction askStepQuestion input = (Normal out, []))
  /\ (forall m, askStepQuestion input = Abrupt (ErrorObject m) ->
        fst (Actions.askQuestionAction askStepQuestion input)
        = Abrupt (ErrorObject m))
  /\ (forall v, askStepQuestion input = Abrupt (NonError v) ->
        fst (Actions.askQuestionAction askStepQuestion input)
        = Abrupt (ErrorObject Actions.unknown_answer_message))
  /\ (forall e,
        fst (Actions.askQuestionAction askStepQuestion input) = Abrupt e ->
        exists m, e = ErrorObject m).
Proof.
  unfold Actions.askQuestionAction. repeat apply conj.
  - intros out ->. reflexivity.
  - intros m ->. reflexivity.
  - intros v ->. reflexivity.
  - intros e. destruct (askStepQuestion input) as [out|cause];
      [discriminate|].
    cbn [fst]. intros [= <-]. eexists. reflexivity.
Qed.

End ActionBehaviour.

Section PageBehaviour.
Context {ExternalLink Quiz : Type}.
Local Abbreviation Step := (Step ExternalLink Quiz).
Local Abbreviation PartialStep := (PartialStep ExternalLink Quiz).
Local Abbreviation Output := (GenerateFullCourseOutput ExternalLink Quiz).
Local Abbreviation Course := (Course ExternalLink Quiz).
Local Abbreviation Store := (Store ExternalLink Quiz).
Local Abbreviation Render := (Render ExternalLink Quiz).
Local Abbreviation Env := (@Env ExternalLink Quiz).
Variable JSON_stringify : list OutlineEntry -> string.

(** ** Records and lists *)

Lemma with_steps_same (c : Course) : with_steps c (steps c) = c.
Proof. destruct c. reflexivity. Qed.

Lemma content_or_empty_default (c : option string) :
  content_or_empty c = match c with Some text => text | None => "" end.
Proof.
  destruct c as [text|]; [|reflexivity].
  unfold content_or_empty, truthy_string.
  destruct (String.eqb_spec text "") as [->|_]; reflexivity.
Qed.

Lemma merge_step_twice (st : Step) (p : PartialStep) :
  merge_step (merge_step st p) p = merge_step st p.
Proof.
  destruct p as [n t c d f l q]. unfold merge_step. cbn.
  destruct n, t, c, d, f, l, q; reflexivity.
Qed.

Lemma updateSteps_unknown (n : Z) (p : PartialStep) (l : list Step) :
  Forall (fun st => stepNumber st <> n) l -> updateSteps n p l = l.
Proof.
  induction 1 as [|st l Hst _ IH]; [reflexivity|].
  cbn [updateSteps map]. fold (updateSteps n p l). rewrite IH.
  apply Z.eqb_neq in Hst. rewrite Hst. reflexivity.
Qed.

Lemma replaceCourse_ids (courseId : string) (u : Course) (l : list Course) :
  has_id courseId u = true ->
  map id (replaceCourse courseId u l) = map id l.
Proof.
  intros Hu. induction l as [|c l IH]; [reflexivity|].
  cbn [replaceCourse map]. fold (replaceCourse courseId u l). rewrite IH.
  destruct (has_id courseId c) eqn:Hc; [|reflexivity].
  unfold has_id in *. apply String.eqb_eq in Hu, Hc. congruence.
Qed.

Lemma find_filter_other (courseId other : string) (l : list Course) :
  other <> courseId ->
  find (has_id other) (filter (fun c => negb (has_id courseId c)) l)
  = find (has_id other) l.
Proof.
  intros Hne. induction l as [|c l IH]; [reflexivity|].
  cbn [filter find]. destruct (has_id courseId c) eqn:Hc; cbn [negb].
  - assert (has_id other c = false) as ->; [|exact IH].
    unfold has_id in *. apply String.eqb_eq in Hc.
    apply String.eqb_neq. congruence.
  - cbn [find]. rewrite IH. reflexivity.
Qed.

Lemma filter_absent (courseId : string) (l : list Course) :
  (forall c, In c l -> id c <> courseId) ->
  filter (fun c => negb (has_id courseId c)) l = l.
Proof.
  induction l as [|c l IH]; intros Habs; [reflexivity|].
  cbn [filter]. unfold has_id at 1.
  assert (String.eqb (id c) courseId = false) as ->.
  { apply String.eqb_neq. apply Habs. left. reflexivity. }
  cbn [negb]. rewrite IH; [reflexivity|].
  intros c' Hin. apply Habs. right. exact Hin.
Qed.

(** Where no two courses share an id, the course a lookup finds is the
    only one of its id. *)
Lemma unique_id (courseId : string) (l : list Course) (c : Course) :
  NoDup (map id l) -> find (has_id courseId) l = Some c ->
  forall c', In c' l -> has_id courseId c' = true -> c' = c.
Proof.
  induction l as [|x l IH]; [discriminate|].
  cbn [map find]. intros Hnd Hfind c' Hin Hc'.
  apply NoDup_cons_iff in Hnd. destruct Hnd as [Hx Hnd].
  destruct (has_id courseId x) eqn:Hhx.
  - injection Hfind as <-. destruct Hin as [<- | Hin]; [reflexivity|].
    exfalso. apply Hx. unfold has_id in *.
    apply String.eqb_eq in Hhx, Hc'. rewrite Hhx, <- Hc'.
    apply in_map. exact Hin.
  - destruct Hin as [<- | Hin]; [congruence|].
    apply IH; assumption.
Qed.

Lemma has_id_with_id (courseId : string) (d : CourseData ExternalLink Quiz) :
  has_id courseId (with_id courseId d) = true.
Proof. apply String.eqb_refl. Qed.

(** ** Asking, selecting, loading *)

(** X4: [handleAskQuestion] never changes the collection, the selection
    or the generation state.  On a mounted page it makes exactly one call,
    whose request has the course's topic, the step's title, the step's
    content or the empty string when the step has none, and the question
    as typed. *)
Theorem handleAskQuestion_frame (r : Render) (env : Env) (s : Store)
    (c : Course) (step : Step) (question : string) :
  let s' := snd (handleAskQuestion r env c step question s) in
  st_courses s' = st_courses s
  /\ st_activeCourseId s' = st_activeCourseId s
  /\ st_generationState s' = st_generationState s
  /\ (mounted r = true ->
      calls (st_events s')
      = calls (st_events s)
        ++ [CallAskQuestionAction
              {| q_topic := topic c;
                 q_stepTitle := title step;
                 q_stepContent :=
                   match content step with Some text => text | None => "" end;
                 q_question := question |}]).
Proof.
  unfold handleAskQuestion, question_input.
  rewrite content_or_empty_default.
  destruct (mounted r); cbn [negb]; run_handler.
  - match goal with
    | |- context [askQuestionAction env ?i] =>
        destruct (askQuestionAction env i) as [a|e]
    end; run_handler; repeat split; intros _;
      rewrite calls_app; reflexivity.
  - repeat split. discriminate.
Qed.

(** X5: [handleCreateNew] clears the selection and nothing else; the
    workspace then shows the topic selection, whatever the collection
    holds. *)
Theorem handleCreateNew_shows_selection (s : Store) (u : User)
    (g : GenerationState) :
  let s' := snd (handleCreateNew s) in
  st_courses s' = st_courses s
  /\ st_generationState s' = st_generationState s
  /\ st_activeCourseId s' = None
  /\ LearnPageComponent (render s' true (Some u)) false g = TopicSelection g.
Proof.
  unfold handleCreateNew. run_handler. repeat split.
  unfold LearnPageComponent, render.
  cbn [mounted user courses activeCourseId negb orb st_activeCourseId].
  rewrite activeCourse_null. reflexivity.
Qed.

(** X6: a fetch that succeeds replaces the whole collection by the
    fetched list, in the order it came; it shows no notification and does
    not touch the selection, which may now name a course that is gone. *)
Theorem fetchCourses_replaces (r : Render) (env : Env) (s : Store)
    (u : User) (userCourses : list Course) :
  user r = Some u -> mounted r = true ->
  getCoursesForUser env (uid u) = Normal userCourses ->
  let s' := snd (fetchCourses r env s) in
  st_courses s' = userCourses
  /\ st_activeCourseId s' = st_activeCourseId s
  /\ toasts (st_events s') = toasts (st_events s)
  /\ calls (st_events s')
     = calls (st_events s) ++ [CallGetCoursesForUser (uid u)]
  /\ ((forall c, In c userCourses -> st_activeCourseId s <> Some (id c)) ->
      activeCourse (st_courses s') (st_activeCourseId s') = None).
Proof.
  intros Hu Hm Hok. unfold fetchCourses. rewrite Hu, Hm.
  run_handler. rewrite Hok. run_handler.
  repeat split.
  - rewrite toasts_app. cbn [toasts]. apply app_nil_r.
  - rewrite calls_app. reflexivity.
  - apply activeCourse_absent.
Qed.

(** X7: before the page is mounted, [handleUpdateStep] and
    [handleDeleteCourse] return at once, and so does [fetchCourses], also
    when nobody is signed in: no state is set, nothing is called, logged or
    shown. *)
Theorem handlers_wait_for_mount (r : Render) (env : Env) (s : Store)
    (courseId : string) (stepNo : Z) (newStepData : PartialStep) :
  (mounted r = false ->
   handleUpdateStep r env courseId stepNo newStepData s = (Normal tt, s)
   /\ handleDeleteCourse r env courseId s = (Normal tt, s)
   /\ fetchCourses r env s = (Normal tt, s))
  /\ (user r = None -> fetchCourses r env s = (Normal tt, s)).
Proof.
  unfold handleUpdateStep, handleDeleteCourse, fetchCourses. split.
  - intros ->. destruct (user r); repeat split.
  - intros ->. reflexivity.
Qed.

(** X8: asked to generate when nobody is signed in or the page is not
    mounted, [handleGenerateCourse] shows the authentication notification
    and stops: it calls nothing and sets no state, so the generation state
    does not even pass through [generating]. *)
Theorem handleGenerateCourse_needs_user (r : Render) (env : Env) (s : Store)
    (topic : string) (depth : Depth) :
  user r = None \/ mounted r = false ->
  let s' := snd (handleGenerateCourse JSON_stringify r env topic depth s) in
  st_events s' = st_events s ++ [ToastShown authentication_toast]
  /\ st_courses s' = st_courses s
  /\ st_activeCourseId s' = st_activeCourseId s
  /\ st_generationState s' = st_generationState s.
Proof.
  intros Hguard. cbn zeta.
  rewrite handleGenerateCourse_unauthenticated by exact Hguard.
  repeat split.
Qed.

(** ** Generating *)

(** The four ways a generation started by a signed-in user can go. *)
Lemma handleGenerateCourse_cases (r : Render) (env : Env) (s : Store)
    (topic : string) (depth : Depth) (u : User) :
  user r = Some u -> mounted r = true ->
  let out := handleGenerateCourse JSON_stringify r env topic depth s in
  let asked :=
    [SetGenerationState {| status := generating |};
     Called (CallGenerateCourseAction (generate_input topic depth))] in
  (exists e,
      generateCourseAction env (generate_input topic depth) = Abrupt e
      /\ out = (Normal tt, generation_failed s asked e))
  \/ (exists result,
         generateCourseAction env (generate_input topic depth) = Normal result
         /\ course result = []
         /\ out = (Normal tt,
                   generation_failed s asked
                     (ErrorObject Actions.zero_steps_message)))
  \/ (exists result data e,
         generateCourseAction env (generate_input topic depth) = Normal result
         /\ course result <> []
         /\ data = newCourseData JSON_stringify env u topic depth result
                     (map newStep (course result))
         /\ addCourse env data = Abrupt e
         /\ out = (Normal tt,
                   generation_failed s (asked ++ [Called (CallAddCourse data)]) e))
  \/ (exists result data newCourseId,
         generateCourseAction env (generate_input topic depth) = Normal result
         /\ course result <> []
         /\ data = newCourseData JSON_stringify env u topic depth result
                     (map newStep (course result))
         /\ addCourse env data = Normal newCourseId
         /\ out = (Normal tt,
                   {| st_courses := with_id newCourseId data :: st_courses s;
                      st_activeCourseId := Some newCourseId;
                      st_generationState := {| status := done |};
                      st_events :=
                        st_events s
                        ++ (asked ++ [Called (CallAddCourse data)])
                        ++ [SetCourses (with_id newCourseId data :: st_courses s);
                            SetActiveCourseId (Some newCourseId);
                            SetGenerationState {| status := done |}] |})).
Proof.
  intros Hu Hm. cbn zeta.
  destruct (generateCourseAction env (generate_input topic depth))
    as [result|e] eqn:Hgen.
  2:{ left. exists e. split; [reflexivity|].
      apply handleGenerateCourse_rejected with (u := u); assumption. }
  right. destruct (course result) as [|o os] eqn:Hc.
  { left. exists result. split; [reflexivity|]. split; [exact Hc|].
    apply handleGenerateCourse_zero_steps with (u := u) (result := result);
      assumption. }
  right. assert (course result <> []) as Hne by (rewrite Hc; discriminate).
  rewrite (handleGenerateCourse_persist JSON_stringify r env s topic depth
             u result Hu Hm Hgen Hne).
  cbn zeta.
  destruct (addCourse env
              (newCourseData JSON_stringify env u topic depth result
                 (map newStep (course result)))) as [newCourseId|e] eqn:Hadd.
  - right. eexists result, _, newCourseId.
    split; [reflexivity|]. split; [exact Hne|]. split; [reflexivity|].
    split; [exact Hadd | reflexivity].
  - left. eexists result, _, e.
    split; [reflexivity|]. split; [exact Hne|]. split; [reflexivity|].
    split; [exact Hadd | reflexivity].
Qed.

(** X9: [handleGenerateCourse] never throws, and a generation started by
    a signed-in user on a mounted page never leaves the generation state
    at [generating]: it ends at [idle] or at [done], whatever the two
    calls do. *)
Theorem handleGenerateCourse_settles (r : Render) (env : Env) (s : Store)
    (topic : string) (depth : Depth) :
  let out := handleGenerateCourse JSON_stringify r env topic depth s in
  fst out = Normal tt
  /\ (forall u, user r = Some u -> mounted r = true ->
      st_generationState (snd out) = {| status := idle |}
      \/ st_generationState (snd out) = {| status := done |}).
Proof.
  cbn zeta. split.
  - destruct (user r) as [u|] eqn:Hu.
    2:{ rewrite handleGenerateCourse_unauthenticated by (left; exact Hu).
        reflexivity. }
    destruct (mounted r) eqn:Hm.
    2:{ rewrite handleGenerateCourse_unauthenticated by (right; exact Hm).
        reflexivity. }
    destruct (handleGenerateCourse_cases r env s topic depth u Hu Hm)
      as [(? & _ & ->) | [(? & _ & _ & ->) | [(? & ? & ? & _ & _ & _ & _ & ->)
         | (? & ? & ? & _ & _ & _ & _ & ->)]]]; reflexivity.
  - intros u Hu Hm.
    destruct (handleGenerateCourse_cases r env s topic depth u Hu Hm)
      as [(? & _ & ->) | [(? & _ & _ & ->) | [(? & ? & ? & _ & _ & _ & _ & ->)
         | (? & ? & ? & _ & _ & _ & _ & ->)]]];
      [left | left | left | right]; reflexivity.
Qed.

(** X10: a generation that does not end at [done] has changed neither
    the collection nor the selection, and has shown exactly one
    notification. *)
Theorem handleGenerateCourse_failure_frame (r : Render) (env : Env)
    (s : Store) (topic : string) (depth : Depth) (u : User) :
  user r = Some u -> mounted r = true ->
  let s' := snd (handleGenerateCourse JSON_stringify r env topic depth s) in
  st_generationState s' <> {| status := done |} ->
  st_courses s' = st_courses s
  /\ st_activeCourseId s' = st_activeCourseId s
  /\ exists e, toasts (st_events s') = toasts (st_events s) ++ [generation_toast e].
Proof.
  intros Hu Hm. cbn zeta.
  destruct (handleGenerateCourse_cases r env s topic depth u Hu Hm)
    as [(e & _ & ->) | [(? & _ & _ & ->) | [(? & ? & e & _ & _ & _ & _ & ->)
       | (? & ? & ? & _ & _ & _ & _ & ->)]]];
    cbn [snd generation_failed st_courses st_activeCourseId
         st_generationState st_events];
    intros Hnot; try (exfalso; apply Hnot; reflexivity);
    (split; [reflexivity|]); (split; [reflexivity|]);
    eexists; rewrite !toasts_app; reflexivity.
Qed.

(** X11: a generation started by a signed-in user ends at [done] exactly
    when the generation action returned at least one step and [addCourse]
    then resolved. *)
Theorem handleGenerateCourse_done_iff (r : Render) (env : Env) (s : Store)
    (topic : string) (depth : Depth) (u : User) :
  user r = Some u -> mounted r = true ->
  st_generationState
    (snd (handleGenerateCourse JSON_stringify r env topic depth s))
  = {| status := done |}
  <-> exists result newCourseId,
      generateCourseAction env (generate_input topic depth) = Normal result
      /\ course result <> []
      /\ addCourse env
           (newCourseData JSON_stringify env u topic depth result
              (map newStep (course result)))
         = Normal newCourseId.
Proof.
  intros Hu Hm.
  destruct (handleGenerateCourse_cases r env s topic depth u Hu Hm)
    as [(e & Hgen & ->) | [(res & Hgen & Hnil & ->)
       | [(res & data & e & Hgen & Hne & -> & Hadd & ->)
       | (res & data & newId & Hgen & Hne & -> & Hadd & ->)]]];
    cbn [snd generation_failed st_generationState]; split;
    try discriminate.
  - intros (result & newId & Hgen' & _). congruence.
  - intros (result & newId & Hgen' & Hne & _). congruence.
  - intros (result & newId & Hgen' & _ & Hadd').
    rewrite Hgen in Hgen'. injection Hgen' as <-. congruence.
  - intros _. exists res, newId. repeat split; assumption.
  - reflexivity.
Qed.

(** X12: after a successful generation the course at the head of the
    collection is the record that was sent to [addCourse] with the id
    [addCourse] returned: it has the requested topic and depth, the
    signed-in user's id as owner and the clock's value as creation time. *)
Theorem generated_course_matches_persisted (r : Render) (env : Env)
    (s : Store) (topic : string) (depth : Depth) (u : User) :
  user r = Some u -> mounted r = true ->
  let s' := snd (handleGenerateCourse JSON_stringify r env topic depth s) in
  st_generationState s' = {| status := done |} ->
  exists data newCourseId,
    In (Called (CallAddCourse data)) (st_events s')
    /\ addCourse env data = Normal newCourseId
    /\ hd_error (st_courses s') = Some (with_id newCourseId data)
    /\ st_activeCourseId s' = Some newCourseId
    /\ d_topic data = topic
    /\ d_depth data = depth
    /\ d_userId data = uid u
    /\ d_createdAt data = date_toISOString env.
Proof.
  intros Hu Hm. cbn zeta.
  destruct (handleGenerateCourse_cases r env s topic depth u Hu Hm)
    as [(e & _ & ->) | [(? & _ & _ & ->) | [(? & ? & e & _ & _ & _ & _ & ->)
       | (res & data & newId & _ & _ & -> & Hadd & ->)]]];
    cbn [snd generation_failed st_generationState]; try discriminate.
  intros _. eexists. exists newId.
  split; [|split; [exact Hadd | repeat split]].
  cbn [st_events]. apply in_or_app. right.
  apply in_or_app. left. cbn. right. right. left. reflexivity.
Qed.

(** ** Updating a step *)

(** The collection after [handleUpdateStep], whatever the render it was
    made by. *)
Lemma handleUpdateStep_courses (r : Render) (env : Env) (s : Store)
    (courseId : string) (stepNo : Z) (newStepData : PartialStep) :
  let out := handleUpdateStep r env courseId stepNo newStepData s in
  fst out = Normal tt
  /\ st_activeCourseId (snd out) = st_activeCourseId s
  /\ st_generationState (snd out) = st_generationState s
  /\ (st_courses (snd out) = st_courses s
      \/ exists c,
          find (has_id courseId) (courses r) = Some c
          /\ let updated :=
               with_steps c (updateSteps stepNo newStepData (steps c)) in
             st_courses (snd out) = replaceCourse courseId updated (st_courses s)
             \/ st_courses (snd out)
                = replaceCourse courseId c
                    (replaceCourse courseId updated (st_courses s))).
Proof.
  cbn zeta. unfold handleUpdateStep.
  destruct (mounted r); cbn [negb]; [|repeat split; left; reflexivity].
  destruct (find (has_id courseId) (courses r)) as [c|] eqn:Hfind;
    [|repeat split; left; reflexivity].
  run_handler.
  destruct (updateCourse env courseId (updateSteps stepNo newStepData (steps c)))
    as [[]|e]; run_handler; repeat split; right; exists c;
    (split; [reflexivity|]); [left | right]; reflexivity.
Qed.

(** X13: [handleUpdateStep] never throws and never adds, removes or
    reorders courses: the ids of the collection, read in order, are the
    same afterwards, and the selection and the generation state are
    untouched.  This holds for every outcome of the call and every
    render. *)
Theorem handleUpdateStep_keeps_ids (r : Render) (env : Env) (s : Store)
    (courseId : string) (stepNo : Z) (newStepData : PartialStep) :
  let out := handleUpdateStep r env courseId stepNo newStepData s in
  fst out = Normal tt
  /\ map id (st_courses (snd out)) = map id (st_courses s)
  /\ st_activeCourseId (snd out) = st_activeCourseId s
  /\ st_generationState (snd out) = st_generationState s.
Proof.
  destruct (handleUpdateStep_courses r env s courseId stepNo newStepData)
    as (Hnormal & Hsel & Hgen & Hcourses).
  cbn zeta in *. repeat split; try assumption.
  destruct Hcourses as [-> | (c & Hfind & [-> | ->])]; [reflexivity| |];
    pose proof (proj2 (find_some _ _ Hfind)) as Hc;
    rewrite !replaceCourse_ids by (try rewrite has_id_with_steps; exact Hc);
    reflexivity.
Qed.

(** X14: [handleUpdateStep] leaves the courses of every other id as they
    are: a lookup of another id finds afterwards what it found before. *)
Theorem handleUpdateStep_other_courses (r : Render) (env : Env) (s : Store)
    (courseId other : string) (stepNo : Z) (newStepData : PartialStep) :
  other <> courseId ->
  find (has_id other)
    (st_courses (snd (handleUpdateStep r env courseId stepNo newStepData s)))
  = find (has_id other) (st_courses s).
Proof.
  intros Hne.
  destruct (handleUpdateStep_courses r env s courseId stepNo newStepData)
    as (_ & _ & _ & Hcourses).
  cbn zeta in *.
  destruct Hcourses as [-> | (c & Hfind & [-> | ->])]; [reflexivity| |];
    pose proof (proj2 (find_some _ _ Hfind)) as Hc;
    assert (has_id other c = false) as Hother
      by (unfold has_id in *; apply String.eqb_eq in Hc;
          apply String.eqb_neq; congruence);
    rewrite !find_replaceCourse_other
      by (try rewrite has_id_with_steps; assumption);
    reflexivity.
Qed.

(** X15: an update for a step number that no step of the course has is
    still sent, with the steps as they were, and the course found in the
    collection afterwards is the course as it was; no error is raised and
    no notification shown when the call succeeds. *)
Theorem handleUpdateStep_unknown_step (r : Render) (env : Env) (s : Store)
    (courseId : string) (stepNo : Z) (newStepData : PartialStep) (c : Course) :
  mounted r = true -> fresh r s ->
  find (has_id courseId) (st_courses s) = Some c ->
  Forall (fun st : Step => stepNumber st <> stepNo) (steps c) ->
  let out := handleUpdateStep r env courseId stepNo newStepData s in
  fst out = Normal tt
  /\ find (has_id courseId) (st_courses (snd out)) = Some c
  /\ calls (st_events (snd out))
     = calls (st_events s) ++ [CallUpdateCourse courseId (steps c)]
  /\ (updateCourse env courseId (steps c) = Normal tt ->
      toasts (st_events (snd out)) = toasts (st_events s)).
Proof.
  intros Hm [Hcs _] Hfind Hunknown. rewrite <- Hcs in Hfind.
  pose proof (handleUpdateStep_run r env s courseId stepNo newStepData c
                Hm Hfind) as (Hnormal & _ & _ & Hrun).
  rewrite Hcs in Hfind.
  pose proof (proj2 (find_some _ _ Hfind)) as Hc.
  cbn zeta in *. rewrite (updateSteps_unknown stepNo newStepData _ Hunknown) in Hrun.
  rewrite with_steps_same in Hrun.
  split; [exact Hnormal|].
  destruct (updateCourse env courseId (steps c)) as [[]|e];
    destruct Hrun as [-> ->];
    rewrite ?find_replaceCourse by exact Hc; rewrite Hfind;
    rewrite calls_app, toasts_app; cbn [calls toasts];
    repeat split; try discriminate.
  intros _. apply app_nil_r.
Qed.

(** X16: applying the same update twice changes the steps no more than
    applying it once, as long as the partial update does not give the step
    another number. *)
Theorem updateSteps_idempotent (stepNo : Z) (newStepData : PartialStep)
    (l : list Step) :
  p_stepNumber newStepData = None \/ p_stepNumber newStepData = Some stepNo ->
  updateSteps stepNo newStepData (updateSteps stepNo newStepData l)
  = updateSteps stepNo newStepData l.
Proof.
  intros Hnumber. induction l as [|st l IH]; [reflexivity|].
  cbn [updateSteps map]. fold (updateSteps stepNo newStepData l).
  fold (updateSteps stepNo newStepData (updateSteps stepNo newStepData l)).
  rewrite IH. f_equal.
  destruct (stepNumber st =? stepNo)%Z eqn:Hst.
  - assert ((stepNumber (merge_step st newStepData) =? stepNo)%Z = true) as ->.
    { cbn [merge_step stepNumber].
      destruct Hnumber as [-> | ->]; cbn [spread_key];
        [exact Hst | apply Z.eqb_refl]. }
    apply merge_step_twice.
  - rewrite Hst. reflexivity.
Qed.

(** X17: when the update is saved, the steps that were sent to
    [updateCourse] are the steps of the course now found in the
    collection: what is shown is what was persisted. *)
Theorem handleUpdateStep_persists_what_it_shows (r : Render) (env : Env)
    (s : Store) (courseId : string) (stepNo : Z) (newStepData : PartialStep)
    (c : Course) :
  mounted r = true -> fresh r s ->
  find (has_id courseId) (st_courses s) = Some c ->
  updateCourse env courseId (updateSteps stepNo newStepData (steps c))
  = Normal tt ->
  let s' := snd (handleUpdateStep r env courseId stepNo newStepData s) in
  exists sent,
    calls (st_events s')
    = calls (st_events s) ++ [CallUpdateCourse courseId sent]
    /\ option_map (fun shown : Course => steps shown)
         (find (has_id courseId) (st_courses s'))
       = Some sent.
Proof.
  intros Hm [Hcs _] Hfind Hok. rewrite <- Hcs in Hfind.
  pose proof (handleUpdateStep_run r env s courseId stepNo newStepData c
                Hm Hfind) as (_ & _ & _ & Hrun).
  rewrite Hcs in Hfind.
  pose proof (proj2 (find_some _ _ Hfind)) as Hc.
  cbn zeta in *. rewrite Hok in Hrun. destruct Hrun as [-> ->].
  eexists. split.
  - rewrite calls_app. reflexivity.
  - rewrite find_replaceCourse by (rewrite has_id_with_steps; exact Hc).
    rewrite Hfind. reflexivity.
Qed.

(** X18: where no two courses of the collection share an id, an update
    that could not be saved leaves the whole collection exactly as it
    was. *)
Theorem handleUpdateStep_rollback_unique (r : Render) (env : Env) (s : Store)
    (courseId : string) (stepNo : Z) (newStepData : PartialStep)
    (c : Course) (e : Thrown) :
  mounted r = true -> fresh r s ->
  NoDup (map id (st_courses s)) ->
  find (has_id courseId) (st_courses s) = Some c ->
  updateCourse env courseId (updateSteps stepNo newStepData (steps c))
  = Abrupt e ->
  st_courses (snd (handleUpdateStep r env courseId stepNo newStepData s))
  = st_courses s.
Proof.
  intros Hm Hfresh Hnd Hfind Hfail.
  apply handleUpdateStep_rollback_whole with (c := c) (e := e);
    try assumption.
  apply unique_id; assumption.
Qed.

(** ** Deleting *)

(** X19: deleting an id that no course of the collection has still calls
    the remote delete, and the collection is the same list afterwards,
    whether the call succeeds or not. *)
Theorem handleDeleteCourse_absent (r : Render) (env : Env) (s : Store)
    (courseId : string) :
  mounted r = true -> fresh r s ->
  (forall c, In c (st_courses s) -> id c <> courseId) ->
  let s' := snd (handleDeleteCourse r env courseId s) in
  st_courses s' = st_courses s
  /\ calls (st_events s') = calls (st_events s) ++ [CallDeleteCourse courseId].
Proof.
  intros Hm [Hcs Hact] Habs.
  pose proof (handleDeleteCourse_run r env s courseId Hm)
    as (_ & _ & _ & Hrun).
  cbn zeta in *. rewrite (filter_absent _ _ Habs) in Hrun.
  destruct (deleteCourseFromDb env courseId) as [[]|e];
    destruct Hrun as [-> ->]; (split; [try reflexivity; exact Hcs|]);
    rewrite calls_app; f_equal; cbn [calls]; rewrite calls_app;
    destruct (is_id (activeCourseId r) courseId); reflexivity.
Qed.

(** X20: deleting a course other than the selected one changes neither
    the selection nor the course the page displays, whether the remote
    delete succeeds or fails. *)
Theorem handleDeleteCourse_keeps_display (r : Render) (env : Env) (s : Store)
    (courseId : string) :
  mounted r = true -> fresh r s ->
  st_activeCourseId s <> Some courseId ->
  let s' := snd (handleDeleteCourse r env courseId s) in
  st_activeCourseId s' = st_activeCourseId s
  /\ activeCourse (st_courses s') (st_activeCourseId s')
     = activeCourse (st_courses s) (st_activeCourseId s).
Proof.
  intros Hm [Hcs Hact] Hother.
  pose proof (handleDeleteCourse_run r env s courseId Hm)
    as (_ & Hsel & _ & Hrun).
  cbn zeta in *. rewrite Hact in Hsel.
  assert (is_id (st_activeCourseId s) courseId = false) as Hnot.
  { destruct (st_activeCourseId s) as [a|]; [|reflexivity].
    cbn [is_id]. apply String.eqb_neq. congruence. }
  rewrite Hnot in Hsel. split; [exact Hsel|]. rewrite Hsel.
  destruct (deleteCourseFromDb env courseId) as [[]|e];
    destruct Hrun as [-> _]; [|rewrite Hcs; reflexivity].
  destruct (st_activeCourseId s) as [a|]; [|rewrite !activeCourse_null; reflexivity].
  apply find_filter_other. congruence.
Qed.

(** ** What the component shows *)

(** X21: when the component shows a course, the page is mounted, the
    session is loaded and a user is signed in, and the course shown is a
    course of the collection whose id is the active identifier. *)
Theorem LearnPageComponent_course_display (r : Render) (loading : bool)
    (g : GenerationState) (c : Course) :
  LearnPageComponent r loading g = CourseDisplay c ->
  mounted r = true /\ loading = false
  /\ (exists u, user r = Some u)
  /\ activeCourseId r = Some (id c)
  /\ In c (courses r).
Proof.
  unfold LearnPageComponent.
  destruct (mounted r), loading; cbn [negb orb]; try discriminate.
  destruct (user r) as [u|]; [|discriminate].
  destruct (activeCourse (courses r) (activeCourseId r)) as [c'|] eqn:Hactive;
    [|discriminate].
  intros [= ->]. apply activeCourse_first in Hactive.
  destruct Hactive as (before & after & Hcs & Hid & _).
  repeat split; try assumption; [exists u; reflexivity|].
  rewrite Hcs. apply in_or_app. right. left. reflexivity.
Qed.

(** X22: the redirect to the login page is set only on a mounted page
    whose session is loaded and has no user; the component then shows the
    loader, never the workspace.  The timer is 100 ms to [/login].  With a
    user signed in no redirect is ever set. *)
Theorem authRedirect_only_from_loader (r : Render) (loading : bool)
    (g : GenerationState) :
  (forall t, authRedirect r loading = Some t ->
     t = {| delay := 100; target := "/login" |}
     /\ mounted r = true /\ loading = false /\ user r = None
     /\ LearnPageComponent r loading g = Loader)
  /\ (forall u, user r = Some u -> authRedirect r loading = None).
Proof.
  unfold authRedirect, LearnPageComponent. split.
  - intros t. destruct (mounted r), loading, (user r);
      cbn [negb andb orb truthy_object]; try discriminate.
    intros [= <-]. repeat split.
  - intros u ->. cbn [truthy_object negb]. rewrite andb_false_r. reflexivity.
Qed.

(** ** The page over the deployed actions *)

(** X23: over the deployed generation action, whatever the flow throws,
    the one notification shown carries the action's fixed message: the
    flow's own message never reaches the user.  The state ends at [idle]
    and [addCourse] is not called. *)
Theorem deployed_flow_error_hidden (r : Render) (env : Env) (s : Store)
    (topic : string) (depth : Depth) (u : User)
    (generateFullCourse : GenerateFullCourseInput -> Completion Output)
    (askStepQuestion : AskStepQuestionInput -> Completion AskStepQuestionOutput)
    (e : Thrown) :
  user r = Some u -> mounted r = true ->
  generateFullCourse (generate_input topic depth) = Abrupt e ->
  let s' :=
    snd (handleGenerateCourse JSON_stringify r
           (deployed env generateFullCourse askStepQuestion) topic depth s) in
  map description (toasts (st_events s'))
  = map description (toasts (st_events s)) ++ [Actions.unable_message]
  /\ st_generationState s' = {| status := idle |}
  /\ calls (st_events s')
     = calls (st_events s)
       ++ [CallGenerateCourseAction (generate_input topic depth)].
Proof.
  intros Hu Hm Hflow. cbn zeta.
  rewrite (handleGenerateCourse_rejected JSON_stringify r
             (deployed env generateFullCourse askStepQuestion) s topic depth
             u (ErrorObject Actions.unable_message) Hu Hm).
  2:{ cbn [deployed generateCourseAction].
      apply (proj1 (generateCourseAction_rejects generateFullCourse
                      (generate_input topic depth)) e Hflow). }
  cbn [snd generation_failed st_events st_generationState].
  rewrite !toasts_app, !calls_app, map_app. repeat split.
Qed.

(** ** Generating, then deleting *)

(** X24: a course that was generated and is then deleted, the remote
    delete succeeding, leaves the collection as it was before the
    generation, provided the id the database gave was not already the id
    of a course; nothing is selected and the topic selection is shown. *)
Theorem generate_then_delete (r : Render) (env : Env) (s : Store)
    (topic : string) (depth : Depth) (u : User) (result : Output)
    (newCourseId : string) (g : GenerationState) :
  user r = Some u -> mounted r = true ->
  generateCourseAction env (generate_input topic depth) = Normal result ->
  course result <> [] ->
  addCourse env
    (newCourseData JSON_stringify env u topic depth result
       (map newStep (course result)))
  = Normal newCourseId ->
  (forall c, In c (st_courses s) -> id c <> newCourseId) ->
  deleteCourseFromDb env newCourseId = Normal tt ->
  let s1 := snd (handleGenerateCourse JSON_stringify r env topic depth s) in
  let r1 := render s1 true (Some u) in
  let s2 := snd (handleDeleteCourse r1 env newCourseId s1) in
  st_courses s2 = st_courses s
  /\ st_activeCourseId s2 = None
  /\ LearnPageComponent (render s2 true (Some u)) false g = TopicSelection g.
Proof.
  intros Hu Hm Hgen Hne Hadd Hnew Hdel. cbn zeta.
  rewrite (handleGenerateCourse_persist JSON_stringify r env s topic depth
             u result Hu Hm Hgen Hne).
  cbn zeta. rewrite Hadd. cbn [snd].
  set (newCourse := with_id newCourseId _).
  set (s1 := Build_Store _ _ _ _).
  pose proof (handleDeleteCourse_run (render s1 true (Some u)) env s1
                newCourseId eq_refl) as (_ & Hsel & _ & Hrun).
  cbn zeta in Hsel, Hrun. rewrite Hdel in Hrun. destruct Hrun as [Hcourses _].
  change (activeCourseId (render s1 true (Some u)))
    with (Some newCourseId) in Hsel.
  cbn [is_id] in Hsel. rewrite String.eqb_refl in Hsel.
  change (st_courses s1) with (newCourse :: st_courses s) in Hcourses.
  cbn [filter] in Hcourses. unfold newCourse in Hcourses.
  rewrite (has_id_with_id newCourseId) in Hcourses. cbn [negb] in Hcourses.
  rewrite (filter_absent _ _ Hnew) in Hcourses.
  split; [exact Hcourses|]. split; [exact Hsel|].
  unfold LearnPageComponent.
  cbn [render mounted user courses activeCourseId negb orb].
  rewrite Hsel, activeCourse_null. reflexivity.
Qed.

End PageBehaviour.

(** ** The further properties at the scenarios *)

(** The failing flow makes the action throw its fixed message and log the
    flow's error. *)
Lemma generateCourseAction_one_message_witness :
  exists cause,
    snd (Actions.generateCourseAction flow_down (generate_input "X" depth15))
    = [[LogText "Error in generateCourseAction:"; LogThrown cause]]
    /\ (flow_down (generate_input "X" depth15) = Abrupt cause
        \/ (cause = ErrorObject Actions.zero_steps_message
            /\ exists result,
                flow_down (generate_input "X" depth15) = Normal result
                /\ course result = [])).
Proof.
  exact (proj2 (generateCourseAction_one_message flow_down
                  (generate_input "X" depth15)
                  (ErrorObject Actions.unable_message) eq_refl)).
Defined.

(** A flow that throws a status code makes the question action throw the
    fixed message. *)
Lemma askQuestionAction_passes_through_witness :
  fst (Actions.askQuestionAction ask_down
         (question_input courseC (plain_step 1 false) "Why?"))
  = Abrupt (ErrorObject Actions.unknown_answer_message).
Proof.
  destruct (askQuestionAction_passes_through ask_down
              (question_input courseC (plain_step 1 false) "Why?"))
    as (_ & _ & Hother & _).
  exact (Hother "503" eq_refl).
Defined.

(** A question on step 1 of [C] makes one call, with the step's body. *)
Lemma handleAskQuestion_frame_witness :
  calls (st_events
           (snd (handleAskQuestion page (online []) courseC
                   (plain_step 1 false) "Why?" shelf)))
  = [CallAskQuestionAction
       {| q_topic := "X"; q_stepTitle := "Step"; q_stepContent := "Body";
          q_question := "Why?" |}].
Proof.
  destruct (handleAskQuestion_frame page (online []) shelf courseC
              (plain_step 1 false) "Why?") as (_ & _ & _ & Hcall).
  exact (Hcall eq_refl).
Defined.

(** The fetch gives [[A]]: the collection is [[A]]. *)
Lemma fetchCourses_replaces_witness :
  st_courses (snd (fetchCourses page (online []) shelf)) = [courseA].
Proof.
  exact (proj1 (fetchCourses_replaces page (online []) shelf alice [courseA]
                  eq_refl eq_refl eq_refl)).
Defined.

(** Before mounting, a deletion is not even attempted. *)
Lemma handlers_wait_for_mount_witness :
  handleDeleteCourse unmounted_page offline "A" shelf = (Normal tt, shelf)
  /\ fetchCourses visitor_page offline shelf = (Normal tt, shelf).
Proof.
  split.
  - destruct (handlers_wait_for_mount unmounted_page offline shelf "A" 1
                mark_completed) as [Hwait _].
    exact (proj1 (proj2 (Hwait eq_refl))).
  - destruct (handlers_wait_for_mount visitor_page offline shelf "A" 1
                mark_completed) as [_ Hvisitor].
    exact (Hvisitor eq_refl).
Defined.

(** A visitor who asks for a course gets the authentication notification
    and the state stays idle. *)
Lemma handleGenerateCourse_needs_user_witness :
  let s' :=
    snd (handleGenerateCourse no_outline visitor_page (online [entry 1 None])
           "X" depth15 shelf) in
  st_events s' = [ToastShown authentication_toast]
  /\ st_generationState s' = {| status := idle |}.
Proof.
  destruct (handleGenerateCourse_needs_user no_outline visitor_page
              (online [entry 1 None]) shelf "X" depth15 (or_introl eq_refl))
    as (Hevents & _ & _ & Hstate).
  split; [exact Hevents | exact Hstate].
Defined.

(** With every call rejected the generation ends at idle or done. *)
Lemma handleGenerateCourse_settles_witness :
  let s' :=
    snd (handleGenerateCourse no_outline page offline "X" depth15 shelf) in
  st_generationState s' = {| status := idle |}
  \/ st_generationState s' = {| status := done |}.
Proof.
  exact (proj2 (handleGenerateCourse_settles no_outline page offline shelf
                  "X" depth15) alice eq_refl eq_refl).
Defined.

(** With every call rejected the collection is still [[A, B, C]]. *)
Lemma handleGenerateCourse_failure_frame_witness :
  st_courses
    (snd (handleGenerateCourse no_outline page offline "X" depth15 shelf))
  = [courseA; courseB; courseC].
Proof.
  refine (proj1 (handleGenerateCourse_failure_frame no_outline page offline
                   shelf "X" depth15 alice eq_refl eq_refl _)).
  discriminate.
Defined.

(** One entry and a database that answers: the generation ends at done. *)
Lemma handleGenerateCourse_done_iff_witness :
  st_generationState
    (snd (handleGenerateCourse no_outline page (online [entry 1 None])
            "X" depth15 shelf))
  = {| status := done |}.
Proof.
  apply (handleGenerateCourse_done_iff no_outline page (online [entry 1 None])
           shelf "X" depth15 alice eq_refl eq_refl).
  exists {| course := [entry 1 None] |}, "N".
  split; [reflexivity|]. split; [discriminate | reflexivity].
Defined.

(** The course generated for alice is owned by alice and has the id the
    database gave. *)
Lemma generated_course_matches_persisted_witness :
  exists data,
    hd_error
      (st_courses
         (snd (handleGenerateCourse no_outline page (online [entry 1 None])
                 "X" depth15 shelf)))
    = Some (with_id "N" data)
    /\ d_userId data = "u1".
Proof.
  destruct (generated_course_matches_persisted no_outline page
              (online [entry 1 None]) shelf "X" depth15 alice
              eq_refl eq_refl eq_refl)
    as (data & newCourseId & _ & Hadd & Hhead & _ & _ & _ & Howner & _).
  exists data. injection Hadd as <-. split; [exact Hhead | exact Howner].
Defined.

(** An update of [C] leaves [A] where and as it was. *)
Lemma handleUpdateStep_other_courses_witness :
  find (has_id "A")
    (st_courses (snd (handleUpdateStep page offline "C" 2 mark_completed shelf)))
  = Some courseA.
Proof.
  rewrite (handleUpdateStep_other_courses page offline shelf "C" "A" 2
             mark_completed).
  - reflexivity.
  - discriminate.
Defined.

(** [C] has no step 7: the update is sent with the two steps as they
    are and [C] is unchanged. *)
Lemma handleUpdateStep_unknown_step_witness :
  let out := handleUpdateStep page (online []) "C" 7 mark_completed shelf in
  find (has_id "C") (st_courses (snd out)) = Some courseC
  /\ calls (st_events (snd out))
     = [CallUpdateCourse "C" [plain_step 1 false; plain_step 2 false]].
Proof.
  assert (Forall (fun st : Step string string => stepNumber st <> 7%Z)
            (steps courseC)) as Hunknown.
  { repeat constructor; discriminate. }
  destruct (handleUpdateStep_unknown_step page (online []) shelf "C" 7
              mark_completed courseC eq_refl (conj eq_refl eq_refl) eq_refl
              Hunknown)
    as (_ & Hfind & Hcalls & _).
  split; [exact Hfind | exact Hcalls].
Defined.

(** Marking step 2 completed twice is marking it once. *)
Lemma updateSteps_idempotent_witness :
  updateSteps 2 mark_completed
    (updateSteps 2 mark_completed (steps courseC))
  = [plain_step 1 false; plain_step 2 true].
Proof.
  rewrite (updateSteps_idempotent 2 mark_completed (steps courseC)
             (or_introl eq_refl)).
  reflexivity.
Defined.

(** The steps sent for [C] are the steps [C] now has. *)
Lemma handleUpdateStep_persists_what_it_shows_witness :
  exists sent,
    calls (st_events
             (snd (handleUpdateStep page (online []) "C" 2 mark_completed shelf)))
    = [CallUpdateCourse "C" sent]
    /\ option_map (fun shown : Course string string => steps shown)
         (find (has_id "C")
            (st_courses
               (snd (handleUpdateStep page (online []) "C" 2 mark_completed
                       shelf))))
       = Some sent.
Proof.
  exact (handleUpdateStep_persists_what_it_shows page (online []) shelf "C" 2
           mark_completed courseC eq_refl (conj eq_refl eq_refl) eq_refl
           eq_refl).
Defined.

(** The ids [A], [B], [C] are distinct: the failed update gives the
    collection back. *)
Lemma handleUpdateStep_rollback_unique_witness :
  st_courses (snd (handleUpdateStep page offline "C" 2 mark_completed shelf))
  = [courseA; courseB; courseC].
Proof.
  assert (NoDup (map id (st_courses shelf))) as Hdistinct.
  { cbn. repeat constructor; cbn; intuition discriminate. }
  exact (handleUpdateStep_rollback_unique page offline shelf "C" 2
           mark_completed courseC unavailable eq_refl (conj eq_refl eq_refl)
           Hdistinct eq_refl eq_refl).
Defined.

(** No course has id [Z]: the delete is called and nothing changes. *)
Lemma handleDeleteCourse_absent_witness :
  let s' := snd (handleDeleteCourse page (online []) "Z" shelf) in
  st_courses s' = [courseA; courseB; courseC]
  /\ calls (st_events s') = [CallDeleteCourse "Z"].
Proof.
  apply (handleDeleteCourse_absent page (online []) shelf "Z"
           eq_refl (conj eq_refl eq_refl)).
  intros c [<- | [<- | [<- | []]]]; discriminate.
Defined.

(** [A] is selected and [B] is deleted: [A] is still displayed. *)
Lemma handleDeleteCourse_keeps_display_witness :
  let s' := snd (handleDeleteCourse page (online []) "B" shelf) in
  activeCourse (st_courses s') (st_activeCourseId s') = Some courseA.
Proof.
  refine (eq_trans
            (proj2 (handleDeleteCourse_keeps_display page (online []) shelf "B"
                      eq_refl (conj eq_refl eq_refl) _))
            eq_refl).
  discriminate.
Defined.

(** The page that shows [A] is mounted and has [A] selected. *)
Lemma LearnPageComponent_course_display_witness :
  mounted page = true /\ activeCourseId page = Some "A".
Proof.
  destruct (LearnPageComponent_course_display page false
              {| status := idle |} courseA eq_refl)
    as (Hmounted & _ & _ & Hid & _).
  split; [exact Hmounted | exact Hid].
Defined.

(** A visitor is sent to the login page while the loader is shown; alice
    is not. *)
Lemma authRedirect_only_from_loader_witness :
  LearnPageComponent visitor_page false {| status := idle |} = Loader
  /\ authRedirect page false = None.
Proof.
  split.
  - destruct (authRedirect_only_from_loader visitor_page false
                {| status := idle |}) as [Hset _].
    exact (proj2 (proj2 (proj2 (proj2 (Hset _ eq_refl))))).
  - destruct (authRedirect_only_from_loader page false {| status := idle |})
      as [_ Hsigned].
    exact (Hsigned alice eq_refl).
Defined.

(** The flow says "quota exceeded"; the user reads the action's text. *)
Lemma deployed_flow_error_hidden_witness :
  map description
    (toasts
       (st_events
          (snd (handleGenerateCourse no_outline page
                  (deployed (online []) flow_down ask_down) "X" depth15 shelf))))
  = [Actions.unable_message].
Proof.
  exact (proj1 (deployed_flow_error_hidden no_outline page (online []) shelf
                  "X" depth15 alice flow_down ask_down
                  (ErrorObject "quota exceeded") eq_refl eq_refl eq_refl)).
Defined.

(** A course is generated and deleted again: the collection is
    [[A, B, C]] as before and nothing is selected. *)
Lemma generate_then_delete_witness :
  let s1 :=
    snd (handleGenerateCourse no_outline page (online [entry 1 None])
           "X" depth15 shelf) in
  let s2 :=
    snd (handleDeleteCourse (render s1 true (Some alice))
           (online [entry 1 None]) "N" s1) in
  st_courses s2 = [courseA; courseB; courseC]
  /\ st_activeCourseId s2 = None.
Proof.
  assert (forall c, In c (st_courses shelf) -> id c <> "N") as Hnew.
  { intros c [<- | [<- | [<- | []]]]; discriminate. }
  destruct (generate_then_delete no_outline page (online [entry 1 None]) shelf
              "X" depth15 alice {| course := [entry 1 None] |} "N"
              {| status := idle |}
              eq_refl eq_refl eq_refl ltac:(discriminate) eq_refl Hnew eq_refl)
    as (Hcourses & Hsel & _).
  split; [exact Hcourses | exact Hsel].
Defined.

(** ** A generation that returns no step *)

Section ZeroSteps.
Context {ExternalLink Quiz : Type}.
Local Abbreviation Output := (GenerateFullCourseOutput ExternalLink Quiz).
Local Abbreviation Store := (Store ExternalLink Quiz).
Local Abbreviation Render := (Render ExternalLink Quiz).
Local Abbreviation Env := (@Env ExternalLink Quiz).
Variable JSON_stringify : list OutlineEntry -> string.

(** C4: a generation by a signed-in user on a mounted page that comes
    back with no step fails: [handleGenerateCourse] ends normally, the
    generation state is [idle], the collection and the selection are what
    they were, and exactly one notification is shown, whose text is a
    fixed sentence written for the user and not the string of a transport
    error.  When the page's call resolves with no step the sentence is the
    page's own; when the flow behind the action resolves with no step it
    is the action's.  A transport error, the call being rejected, shows
    the message of the error it was rejected with, or the generic text;
    behind the action it never shows: the action's sentence is shown
    whatever the flow threw. *)
Theorem generation_zero_steps_fails (r : Render) (env : Env) (s : Store)
    (topic : string) (depth : Depth) (u : User) :
  user r = Some u -> mounted r = true ->
  let input := generate_input topic depth in
  let run (e : Env) := handleGenerateCourse JSON_stringify r e topic depth s in
  let failed_with (text : string) (s' : Store) :=
    st_generationState s' = {| status := idle |}
    /\ st_courses s' = st_courses s
    /\ st_activeCourseId s' = st_activeCourseId s
    /\ toasts (st_events s')
       = toasts (st_events s)
         ++ [{| variant := "destructive";
                toast_title := "Error Generating Course";
                description := text |}] in
  (forall result,
      generateCourseAction env input = Normal result -> course result = [] ->
      fst (run env) = Normal tt
      /\ failed_with
           "The AI failed to generate a course for this topic. Please try a different topic."
           (snd (run env)))
  /\ (forall generateFullCourse askStepQuestion result,
         generateFullCourse input = Normal result -> course result = [] ->
         fst (run (deployed env generateFullCourse askStepQuestion)) = Normal tt
         /\ failed_with
              "The AI was unable to generate a course for this topic. This can happen with very specific or sensitive subjects. Please try a broader or different topic."
              (snd (run (deployed env generateFullCourse askStepQuestion))))
  /\ (forall e,
         generateCourseAction env input = Abrupt e ->
         failed_with
           match e with
           | ErrorObject message => message
           | NonError _ => "An unknown error occurred."
           end
           (snd (run env)))
  /\ (forall generateFullCourse askStepQuestion e,
         generateFullCourse input = Abrupt e ->
         failed_with
           "The AI was unable to generate a course for this topic. This can happen with very specific or sensitive subjects. Please try a broader or different topic."
           (snd (run (deployed env generateFullCourse askStepQuestion)))).
Proof.
  intros Hu Hm. cbn zeta.
  assert (forall (e' : Env) (thrown : Thrown) evs,
             st_generationState (generation_failed s evs thrown)
             = {| status := idle |}
             /\ st_courses (generation_failed s evs thrown) = st_courses s
             /\ st_activeCourseId (generation_failed s evs thrown)
                = st_activeCourseId s
             /\ toasts (st_events (generation_failed s evs thrown))
                = toasts (st_events s)
                  ++ toasts evs ++ [generation_toast thrown]) as Hfailed.
  { intros _ thrown evs. cbn [generation_failed st_generationState st_courses
                              st_activeCourseId st_events].
    repeat split. rewrite !toasts_app. reflexivity. }
  repeat apply conj.
  - intros result Hgen Hnil.
    rewrite (handleGenerateCourse_zero_steps JSON_stringify r env s topic depth
               u result Hu Hm Hgen Hnil).
    split; [reflexivity|]. apply (Hfailed env).
  - intros flow ask result Hflow Hnil.
    rewrite (handleGenerateCourse_rejected JSON_stringify r
               (deployed env flow ask) s topic depth u
               (ErrorObject Actions.unable_message) Hu Hm).
    + split; [reflexivity|]. apply (Hfailed env).
    + cbn [deployed generateCourseAction].
      rewrite (proj2 (generateCourseAction_rejects flow
                        (generate_input topic depth)) result Hflow Hnil).
      reflexivity.
  - intros e Hgen.
    rewrite (handleGenerateCourse_rejected JSON_stringify r env s topic depth
               u e Hu Hm Hgen).
    cbn [snd]. destruct e; apply (Hfailed env).
  - intros flow ask e Hflow.
    rewrite (handleGenerateCourse_rejected JSON_stringify r
               (deployed env flow ask) s topic depth u
               (ErrorObject Actions.unable_message) Hu Hm).
    + apply (Hfailed env).
    + cbn [deployed generateCourseAction].
      apply (proj1 (generateCourseAction_rejects flow
                      (generate_input topic depth)) e Hflow).
Qed.

End ZeroSteps.

(** The action hands the page an empty course: the page shows its own
    sentence and goes back to idle with [[A, B, C]].  The flow hands the
    action an empty course: the page shows the action's sentence. *)
Lemma generation_zero_steps_fails_witness :
  (let s' :=
     snd (handleGenerateCourse no_outline page (online []) "X" depth15 shelf) in
   st_generationState s' = {| status := idle |}
   /\ st_courses s' = [courseA; courseB; courseC]
   /\ map description (toasts (st_events s'))
      = ["The AI failed to generate a course for this topic. Please try a different topic."])
  /\ (let s' :=
        snd (handleGenerateCourse no_outline page
               (deployed offline (fun _ => Normal {| course := [] |}) ask_down)
               "X" depth15 shelf) in
      st_generationState s' = {| status := idle |}
      /\ st_courses s' = [courseA; courseB; courseC]
      /\ map description (toasts (st_events s'))
         = ["The AI was unable to generate a course for this topic. This can happen with very specific or sensitive subjects. Please try a broader or different topic."]).
Proof.
  split.
  - destruct (generation_zero_steps_fails no_outline page (online []) shelf
                "X" depth15 alice eq_refl eq_refl) as (Hpage & _).
    destruct (Hpage {| course := [] |} eq_refl eq_refl)
      as (_ & Hidle & Hcourses & _ & Htoasts).
    cbn zeta. rewrite Htoasts. repeat split; assumption.
  - destruct (generation_zero_steps_fails no_outline page offline shelf
                "X" depth15 alice eq_refl eq_refl) as (_ & Hflow & _).
    destruct (Hflow (fun _ => Normal {| course := [] |}) ask_down
                {| course := [] |} eq_refl eq_refl)
      as (_ & Hidle & Hcourses & _ & Htoasts).
    cbn zeta. rewrite Htoasts. repeat split; assumption.
Defined.
